(** * server-amigo: the metrics broadcaster of [server/app/main.py]

    A shallow embedding of the module's sampling function ([get_metrics]),
    its broadcast loop ([broadcast_metrics_loop]), the per-connection
    handler ([websocket_endpoint]) and the lifecycle hooks ([on_startup],
    [on_shutdown]), followed by the properties of the specification that
    concern them.

    The module keeps its state in globals ([clients], [broadcast_task],
    [last_io_stats]); they are the fields of [world], threaded through a
    state-and-exception monad.  Every coroutine runs on one event loop, so
    other tasks only run while the current one is suspended at an [await];
    the activity of the connection handlers during such a suspension is an
    explicit input of the model.

    What the model takes from the libraries the module calls:
    - [asyncio.CancelledError] is not an [Exception] (Python 3.8 and
      later); [asyncio.sleep] and [asyncio.gather] with
      [return_exceptions=True] raise nothing but a cancellation; a gather
      cancelled before its coroutines were started runs none of them;
    - a [set] lists its members in an order that a [discard] keeps and an
      [add] may change in any way ([SetOrder]);
    - what [psutil], [send_text] and [close] raise derives from
      [Exception]; [round], [json.dumps], [str] and [datetime.now] return;
    - the loop task, once created, has reached its first [await] (which
      lies inside the [try] of line 100) before the shutdown hook runs;
    - floats, their division and rounding, and the JSON text are
      parameters ([PyRuntime]). *)

From Stdlib Require Import List ZArith QArith Bool String Ascii Lia PeanoNat.
From Stdlib Require Import DecimalString.
Import ListNotations.

Close Scope Q_scope.
Open Scope string_scope.
Open Scope list_scope.

Set Implicit Arguments.

(** ** Exceptions and outcomes *)

(** The exceptions the module distinguishes.  [WebSocketDisconnect] and the
    generic [PyException] derive from Python's [Exception];
    [CancelledError] derives from [BaseException] only (Python 3.8 and
    later), so an [except Exception] clause does not catch it. *)
Inductive exn : Type :=
| CancelledError
| WebSocketDisconnect
| PyException (msg : string).

Definition is_Exception (e : exn) : bool :=
  match e with
  | CancelledError => false
  | WebSocketDisconnect | PyException _ => true
  end.

Definition is_CancelledError (e : exn) : bool :=
  match e with
  | CancelledError => true
  | _ => false
  end.

(** [str(e)]: the message the exception carries. *)
Definition str (e : exn) : string :=
  match e with
  | PyException msg => msg
  | _ => EmptyString
  end.

(** What running a piece of code yields: a value, a raised exception, or
    [Pending] when the coroutine has not finished (it is suspended for
    good, or still looping at the end of the observed run). *)
Inductive result (A : Type) : Type :=
| Ret (a : A)
| Raise (e : exn)
| Pending.

Arguments Raise {A} e.
Arguments Pending {A}.

(** ** The module's global state *)

(** A [WebSocket] object, known by its identity. *)
Definition WebSocket : Type := nat.

(** [psutil.disk_io_counters()]: the two cumulative counters the module
    reads. *)
Record sdiskio : Type := mk_sdiskio {
  read_bytes : Z;
  write_bytes : Z
}.

(** An [asyncio.Task] running [broadcast_metrics_loop]: suspended at one of
    the loop's awaits, suspended with a cancellation requested, or done. *)
Inductive task : Type :=
| TaskPending
| TaskCancelling
| TaskDone (raised : option exn).

Definition task_done (t : task) : bool :=
  match t with
  | TaskDone _ => true
  | _ => false
  end.

(** Observable effects, in the order they happen. *)
Inductive event : Type :=
| EvSleep
| EvSample
| EvSend (ws : WebSocket) (message : string)
| EvClose (ws : WebSocket)
| EvAccept (ws : WebSocket)
| EvConnected (ws : WebSocket)
| EvDisconnected (ws : WebSocket)
| EvCreateTask
| EvCancelTask
| EvBanner.

Record world : Type := mk_world {
  clients : list WebSocket;
  broadcast_task : option task;
  last_io_stats : option sdiskio;
  log : list event
}.

(** ** The registry: a Python [set] of connections

    The set is kept as the duplicate-free list of its members in iteration
    order.  [discard] leaves the relative order of the remaining members
    as it was (CPython marks the slot as deleted and does not rebuild the
    table).  An [add] puts the new member into the slot its hash selects
    and may rebuild the table, so the order in which the members are
    listed afterwards is not determined by the order before: it is a
    parameter of the model ([SetOrder]), any listing of the old members
    and the new one. *)

Definition set_contains (x : WebSocket) (s : list WebSocket) : bool :=
  existsb (Nat.eqb x) s.

(** The order in which a set lists its members once [x] has been added
    to the members listed as [s]. *)
Class SetOrder : Type := {
  order_after_add : WebSocket -> list WebSocket -> list WebSocket
}.

(** Whether two lists hold the same members, each as often. *)
Definition same_members (l l' : list WebSocket) : bool :=
  forallb (fun y => Nat.eqb (count_occ Nat.eq_dec l y) (count_occ Nat.eq_dec l' y))
          (l ++ l').

(** [s.add(x)]: nothing happens when [x] is a member; otherwise the
    members are the old ones and [x], listed as [order_after_add] says
    (a listing that is none of them does not count). *)
Definition set_add {O : SetOrder} (x : WebSocket) (s : list WebSocket)
  : list WebSocket :=
  if set_contains x s then s
  else if same_members (order_after_add x s) (s ++ [x])
       then order_after_add x s
       else s ++ [x].

Definition set_discard (x : WebSocket) (s : list WebSocket) : list WebSocket :=
  filter (fun y => negb (Nat.eqb x y)) s.

(** ** The state-and-exception monad *)

Definition M (A : Type) : Type := world -> result A * world.

Definition ret {A} (a : A) : M A := fun w => (Ret a, w).

Definition raise {A} (e : exn) : M A := fun w => (Raise e, w).

Definition bind {A B} (m : M A) (f : A -> M B) : M B :=
  fun w =>
    match m w with
    | (Ret a, w') => f a w'
    | (Raise e, w') => (Raise e, w')
    | (Pending, w') => (Pending, w')
    end.

Declare Scope py_scope.
Delimit Scope py_scope with py.
Notation "x <- m ;; k" := (bind m (fun x => k))
  (at level 100, m at next level, right associativity) : py_scope.
Notation "m ;; k" := (bind m (fun _ => k))
  (at level 100, right associativity) : py_scope.
Open Scope py_scope.

(** [try: body / except Exception as e: handler e] *)
Definition try_except_Exception {A} (body : M A) (handler : exn -> M A) : M A :=
  fun w =>
    match body w with
    | (Raise e, w') => if is_Exception e then handler e w' else (Raise e, w')
    | other => other
    end.

(** [try: body / except asyncio.CancelledError: handler] *)
Definition try_except_CancelledError {A} (body : M A) (handler : exn -> M A) : M A :=
  fun w =>
    match body w with
    | (Raise e, w') => if is_CancelledError e then handler e w' else (Raise e, w')
    | other => other
    end.

(** [try: body / finally: cleanup]: the cleanup runs whenever the body
    returns or raises, and the body's outcome stands unless the cleanup
    itself does not return. *)
Definition try_finally {A} (body : M A) (cleanup : M unit) : M A :=
  fun w =>
    match body w with
    | (Pending, w') => (Pending, w')
    | (r, w') =>
        match cleanup w' with
        | (Ret _, w'') => (r, w'')
        | (Raise e, w'') => (Raise e, w'')
        | (Pending, w'') => (Pending, w'')
        end
    end.

(** [for x in l: f x] *)
Fixpoint for_each {A} (l : list A) (f : A -> M unit) : M unit :=
  match l with
  | [] => ret tt
  | x :: l' => f x ;; for_each l' f
  end.

Definition emit (e : event) : M unit :=
  fun w => (Ret tt, mk_world (clients w) (broadcast_task w) (last_io_stats w)
                             (log w ++ [e])).

Definition get_clients : M (list WebSocket) := fun w => (Ret (clients w), w).

Definition put_clients (s : list WebSocket) : M unit :=
  fun w => (Ret tt, mk_world s (broadcast_task w) (last_io_stats w) (log w)).

Definition get_last_io_stats : M (option sdiskio) :=
  fun w => (Ret (last_io_stats w), w).

Definition put_last_io_stats (s : option sdiskio) : M unit :=
  fun w => (Ret tt, mk_world (clients w) (broadcast_task w) s (log w)).

Definition get_broadcast_task : M (option task) :=
  fun w => (Ret (broadcast_task w), w).

Definition put_broadcast_task (t : option task) : M unit :=
  fun w => (Ret tt, mk_world (clients w) t (last_io_stats w) (log w)).

(** [clients.add(ws)], [clients.discard(ws)], [ws in clients],
    [clients.clear()] and [list(clients)] *)
Definition clients_add {O : SetOrder} (ws : WebSocket) : M unit :=
  s <- get_clients ;; put_clients (set_add ws s).

Definition clients_discard (ws : WebSocket) : M unit :=
  s <- get_clients ;; put_clients (set_discard ws s).

Definition clients_contains (ws : WebSocket) : M bool :=
  s <- get_clients ;; ret (set_contains ws s).

Definition clients_clear : M unit := put_clients [].

Definition list_clients : M (list WebSocket) := get_clients.

(** ** The per-connection handler, [websocket_endpoint] *)

(** Lines 162-165: the handshake, the log line and the registration.  A
    handshake that raises leaves the function before the registration. *)
Definition websocket_endpoint_enter {O : SetOrder} (websocket : WebSocket)
    (accept_raises : option exn) : M unit :=
  emit (EvAccept websocket) ;;
  match accept_raises with Some e => raise e | None => ret tt end ;;
  emit (EvConnected websocket) ;;
  clients_add websocket.

(** Lines 166-176 from the moment [receive_text] raises [e]: the two
    [except] clauses both [pass], and the [finally] block removes the
    connection when it is still registered. *)
Definition websocket_endpoint_leave (websocket : WebSocket) (e : exn) : M unit :=
  try_finally
    (try_except_Exception (raise e) (fun _ => ret tt))
    (present <- clients_contains websocket ;;
     (if present then clients_discard websocket else ret tt) ;;
     emit (EvDisconnected websocket)).

(** What the other tasks do while this one is suspended. *)
Definition yield_to (others : world -> world) : M unit :=
  fun w => (Ret tt, others w).

(** The whole handler.  The receive loop discards what it reads and can
    only be left by an exception of [receive_text]; [others] is what the
    rest of the program does to the state while the handler waits. *)
Definition websocket_endpoint {O : SetOrder} (websocket : WebSocket)
    (accept_raises : option exn) (others : world -> world) (e : exn) : M unit :=
  websocket_endpoint_enter websocket accept_raises ;;
  yield_to others ;;
  websocket_endpoint_leave websocket e.

(** What the handlers do while another coroutine is suspended: connections
    are accepted and registered, receive loops end. *)
Inductive handler_event : Type :=
| HConnect (ws : WebSocket)
| HLeave (ws : WebSocket) (e : exn).

Definition run_handler {O : SetOrder} (h : handler_event) : M unit :=
  match h with
  | HConnect ws => websocket_endpoint_enter ws None
  | HLeave ws e => websocket_endpoint_leave ws e
  end.

(** The handlers are tasks of their own: what one of them raises ends that
    handler and nothing else. *)
Fixpoint run_handlers {O : SetOrder} (hs : list handler_event) : M unit :=
  match hs with
  | [] => ret tt
  | h :: hs' => fun w => run_handlers hs' (snd (run_handler h w))
  end.

(** ** The metrics source, [get_metrics] *)

(** A number of the record: the error branch stores the integer [0], the
    normal branch stores rounded floats. *)
Inductive pynum (float : Type) : Type :=
| PyInt (z : Z)
| PyFloat (x : float).

Arguments PyInt {float} z.

(** The dictionary [get_metrics] returns; [error] is [None] when the key is
    absent. *)
Record metrics (float : Type) : Type := mk_metrics {
  cpu : pynum float;
  memory : pynum float;
  disk : pynum float;
  disk_read : pynum float;
  disk_write : pynum float;
  error : option string;
  timestamp : string
}.

(** What the interpreter and the [json] module provide: conversion of an
    integer to a float, float division, the test for a zero divisor,
    [round(x, 2)] and [json.dumps]. *)
Class PyRuntime (float : Type) : Type := {
  float_of_int : Z -> float;
  float_div : float -> float -> float;
  float_is_zero : float -> bool;
  round2 : float -> float;
  json_dumps : metrics float -> string
}.

(** What a library call yields: a value, or an exception (derived from
    [Exception]) with its message. *)
Inductive outcome (A : Type) : Type :=
| Value (a : A)
| Failure (msg : string).

Arguments Failure {A} msg.

(** The readings one call of [get_metrics] obtains from [psutil] and from
    the clock.  [disk_io_counters] yields [None] on a host without disks. *)
Record psutil_reading (float : Type) : Type := mk_psutil_reading {
  cpu_percent : outcome float;
  virtual_memory_percent : outcome float;
  disk_usage_percent : outcome float;
  disk_io_counters : outcome (option sdiskio);
  now_isoformat : string
}.

Definition call {A} (o : outcome A) : M A :=
  match o with
  | Value a => ret a
  | Failure msg => raise (PyException msg)
  end.

(** [o.read_bytes] and [o.write_bytes]; on [None] they raise
    [AttributeError]. *)
Definition attr_read_bytes (o : option sdiskio) : M Z :=
  match o with
  | Some s => ret (read_bytes s)
  | None => raise (PyException "'NoneType' object has no attribute 'read_bytes'")
  end.

Definition attr_write_bytes (o : option sdiskio) : M Z :=
  match o with
  | Some s => ret (write_bytes s)
  | None => raise (PyException "'NoneType' object has no attribute 'write_bytes'")
  end.

Section MetricsSource.

Context {float : Type} {RT : PyRuntime float}.

(** [UPDATE_INTERVAL = float(os.getenv("UPDATE_INTERVAL", "2"))] *)
Variable UPDATE_INTERVAL : float.

(** [n / x] for an integer [n] and a float [x] *)
Definition truediv (n : Z) (x : float) : M float :=
  if float_is_zero x then raise (PyException "float division by zero")
  else ret (float_div (float_of_int n) x).

(** Lines 65-85, the body of the [try]. *)
Definition get_metrics_try (env : psutil_reading float) : M (metrics float) :=
  cpu <- call (cpu_percent env) ;;
  memory <- call (virtual_memory_percent env) ;;
  disk_usage <- call (disk_usage_percent env) ;;
  current_io_stats <- call (disk_io_counters env) ;;
  current_read <- attr_read_bytes current_io_stats ;;
  last <- get_last_io_stats ;;
  last_read <- attr_read_bytes last ;;
  let read_bytes := (current_read - last_read)%Z in
  current_write <- attr_write_bytes current_io_stats ;;
  last' <- get_last_io_stats ;;
  last_write <- attr_write_bytes last' ;;
  let write_bytes := (current_write - last_write)%Z in
  read_speed <- truediv read_bytes UPDATE_INTERVAL ;;
  write_speed <- truediv write_bytes UPDATE_INTERVAL ;;
  put_last_io_stats current_io_stats ;;
  ret {| cpu := PyFloat (round2 cpu);
         memory := PyFloat (round2 memory);
         disk := PyFloat (round2 disk_usage);
         disk_read := PyFloat (round2 read_speed);
         disk_write := PyFloat (round2 write_speed);
         error := None;
         timestamp := now_isoformat env |}.

(** Lines 86-95, the [except Exception as e] clause. *)
Definition get_metrics_except (env : psutil_reading float) (e : exn)
  : M (metrics float) :=
  ret {| cpu := PyInt 0;
         memory := PyInt 0;
         disk := PyInt 0;
         disk_read := PyInt 0;
         disk_write := PyInt 0;
         error := Some (str e);
         timestamp := now_isoformat env |}.

Definition get_metrics (env : psutil_reading float) : M (metrics float) :=
  emit EvSample ;;
  try_except_Exception (get_metrics_try env) (get_metrics_except env).

End MetricsSource.

(** ** The broadcast loop, [broadcast_metrics_loop] *)

(** The awaits of the loop, where a cancellation can reach it. *)
Inductive suspension : Type :=
| AtSleep
| AtGather
| AtClose (ws : WebSocket).

Definition suspension_eqb (p q : suspension) : bool :=
  match p, q with
  | AtSleep, AtSleep => true
  | AtGather, AtGather => true
  | AtClose a, AtClose b => Nat.eqb a b
  | _, _ => false
  end.

(** What one pass of the loop meets: the await (if any) at which
    [task.cancel()] reaches it, what the handlers do during each of its
    awaits, the readings of the sample, and which sends and closes raise.
    [sends_started] matters to a pass cancelled at the gather only: it
    tells whether the send coroutines had been started when the
    cancellation came.  The gather schedules them all at once, so either
    all of them have called [send_text] by then, or none has: a coroutine
    cancelled before its first step never runs its body. *)
Record tick_env (float : Type) : Type := mk_tick_env {
  cancel : option suspension;
  during_sleep : list handler_event;
  psutil : psutil_reading float;
  send_raises : WebSocket -> option string;
  sends_started : bool;
  during_gather : list handler_event;
  close_raises : WebSocket -> option string;
  during_close : WebSocket -> list handler_event
}.

(** An await of the current task: the handlers run, and the await raises
    [CancelledError] when the task was cancelled meanwhile. *)
Definition await_point {O : SetOrder} (cancelled : bool) (hs : list handler_event) : M unit :=
  run_handlers hs ;;
  if cancelled then raise CancelledError else ret tt.

Definition cancelled_at {float} (env : tick_env float) (p : suspension) : bool :=
  match cancel env with
  | Some q => suspension_eqb p q
  | None => false
  end.

(** Whether the send coroutines of the pass run: always, unless the pass
    is cancelled at the gather before they were started. *)
Definition sends_made {float} (env : tick_env float) : bool :=
  negb (cancelled_at env AtGather) || sends_started env.

(** [await ws.close()] *)
Definition ws_close {O : SetOrder} (ws : WebSocket) (cancelled : bool)
    (hs : list handler_event) (raises : option string) : M unit :=
  emit (EvClose ws) ;;
  await_point cancelled hs ;;
  match raises with
  | Some msg => raise (PyException msg)
  | None => ret tt
  end.

(** [asyncio.gather] with [return_exceptions=True]: every coroutine is
    run, and what it returns or raises becomes its entry of the result
    list, in the order of the arguments. *)
Fixpoint gather_return_exceptions (coros : list (M unit)) : M (list (result unit)) :=
  match coros with
  | [] => ret []
  | c :: coros' =>
      fun w =>
        let (r, w') := c w in
        (rs <- gather_return_exceptions coros' ;; ret (r :: rs)) w'
  end.

(** [isinstance(res, Exception)] *)
Definition isinstance_Exception {A} (res : result A) : bool :=
  match res with
  | Raise e => is_Exception e
  | _ => false
  end.

Section BroadcastLoop.

Context {float : Type} {RT : PyRuntime float} {O : SetOrder}.
Variable UPDATE_INTERVAL : float.

(** [await asyncio.sleep(UPDATE_INTERVAL)] *)
Definition asyncio_sleep (env : tick_env float) : M unit :=
  emit EvSleep ;;
  await_point (cancelled_at env AtSleep) (during_sleep env).

(** Lines 120-122. *)
Definition safe_send (env : tick_env float) (ws : WebSocket)
    (message : string) : M unit :=
  emit (EvSend ws message) ;;
  match send_raises env ws with
  | Some msg => raise (PyException msg)
  | None => ret tt
  end.

(** [await asyncio.gather(...)] with [return_exceptions=True], line 108.
    A cancellation that comes before the coroutines were started cancels
    them unstarted and is raised by the await; otherwise they all run, and
    the await raises when a cancellation came meanwhile. *)
Definition asyncio_gather (env : tick_env float) (coros : list (M unit))
  : M (list (result unit)) :=
  if sends_made env then
    results <- gather_return_exceptions coros ;;
    await_point (cancelled_at env AtGather) (during_gather env) ;;
    ret results
  else
    await_point true (during_gather env) ;;
    ret [].

(** Lines 110-115, the body of the pruning loop. *)
Definition prune (env : tick_env float)
    (pair : WebSocket * result unit) : M unit :=
  let (ws, res) := pair in
  if isinstance_Exception res then
    try_except_Exception
      (ws_close ws (cancelled_at env (AtClose ws)) (during_close env ws)
                (close_raises env ws))
      (fun _ => ret tt) ;;
    clients_discard ws
  else ret tt.

(** Lines 102-115, one pass of the [while True] loop. *)
Definition tick (env : tick_env float) : M unit :=
  asyncio_sleep env ;;
  registered <- get_clients ;;
  match registered with
  | [] => ret tt
  | _ :: _ =>
      metrics <- get_metrics UPDATE_INTERVAL (psutil env) ;;
      let message := json_dumps metrics in
      targets <- list_clients ;;
      let send_coros := map (fun ws => safe_send env ws message) targets in
      results <- asyncio_gather env send_coros ;;
      members <- list_clients ;;
      for_each (combine members results) (prune env)
  end.

(** [while True], observed for as many passes as there are environments;
    after the last of them the loop is still running. *)
Fixpoint while_True (envs : list (tick_env float)) : M unit :=
  match envs with
  | [] => fun w => (Pending, w)
  | env :: envs' => tick env ;; while_True envs'
  end.

(** Lines 116-117. *)
Definition on_CancelledError (e : exn) : M unit := ret tt.

Definition broadcast_metrics_loop (envs : list (tick_env float)) : M unit :=
  try_except_CancelledError (while_True envs) on_CancelledError.

End BroadcastLoop.

(** ** The lifecycle hooks *)

(** What [CancelledError], thrown by [task.cancel()] into the loop at the
    await where it is suspended (lines 102, 108 and 112 all lie within the
    [try] of line 100), makes of the task. *)
Definition throw_into_broadcast_metrics_loop (e : exn) : M unit :=
  try_except_CancelledError (raise e) on_CancelledError.

(** Lines 128-138.  The lock is free whenever the hook runs. *)
Definition on_startup : M unit :=
  t <- get_broadcast_task ;;
  (match t with
   | None => emit EvCreateTask ;; put_broadcast_task (Some TaskPending)
   | Some t' =>
       if task_done t'
       then emit EvCreateTask ;; put_broadcast_task (Some TaskPending)
       else ret tt
   end) ;;
  emit EvBanner.

(** [broadcast_task.cancel()]: a task that is done ignores the request. *)
Definition task_cancel (t : task) : M unit :=
  emit EvCancelTask ;;
  match t with
  | TaskPending => put_broadcast_task (Some TaskCancelling)
  | _ => ret tt
  end.

(** What the shutdown hook meets: what the handlers do while it waits for
    the task and during each close, and which closes raise. *)
Record shutdown_env : Type := mk_shutdown_env {
  during_task_wait : list handler_event;
  shutdown_close_raises : WebSocket -> option string;
  during_shutdown_close : WebSocket -> list handler_event
}.

(** [await broadcast_task]: a task that is done hands over its outcome; a
    task with a cancellation requested is resumed with [CancelledError]
    and its outcome is that of the loop; a task nobody cancelled keeps the
    caller waiting. *)
Definition await_task {O : SetOrder} (env : shutdown_env) (t : task) : M unit :=
  run_handlers (during_task_wait env) ;;
  match t with
  | TaskDone None => ret tt
  | TaskDone (Some e) => raise e
  | TaskCancelling =>
      fun w =>
        match throw_into_broadcast_metrics_loop CancelledError w with
        | (Ret _, w') => put_broadcast_task (Some (TaskDone None)) w'
        | (Raise e, w') =>
            (put_broadcast_task (Some (TaskDone (Some e))) ;; raise e) w'
        | (Pending, w') => (Pending, w')
        end
  | TaskPending => fun w => (Pending, w)
  end.

(** Lines 145-150: the task, when there is one (a [Task] object is never
    falsy), is cancelled and awaited. *)
Definition stop_broadcast_task {O : SetOrder} (env : shutdown_env) : M unit :=
  t <- get_broadcast_task ;;
  match t with
  | Some t' =>
      task_cancel t' ;;
      try_except_Exception
        (t'' <- get_broadcast_task ;;
         match t'' with
         | Some cancelled => await_task env cancelled
         | None => ret tt
         end)
        (fun _ => ret tt)
  | None => ret tt
  end.

(** Lines 151-156. *)
Definition close_all_clients {O : SetOrder} (env : shutdown_env) : M unit :=
  snapshot <- list_clients ;;
  for_each snapshot
    (fun ws =>
       try_except_Exception
         (ws_close ws false (during_shutdown_close env ws)
                   (shutdown_close_raises env ws))
         (fun _ => ret tt)) ;;
  clients_clear.

(** Lines 144-156. *)
Definition on_shutdown {O : SetOrder} (env : shutdown_env) : M unit :=
  stop_broadcast_task env ;;
  close_all_clients env.

(** ** A runtime for the examples

    Exact rational arithmetic stands in for the floats: [round(x, 2)]
    rounds to the nearest hundredth, ties to the even one, and
    [json.dumps] prints the dictionary in insertion order. *)

Definition Q_round2 (x : Q) : Q :=
  let n := (Qnum x * 100)%Z in
  let d := Z.pos (Qden x) in
  let q := (n / d)%Z in
  let r := (n mod d)%Z in
  let up :=
    match (2 * r ?= d)%Z with
    | Lt => false
    | Gt => true
    | Eq => Z.odd q
    end in
  Qmake (if up then q + 1 else q) 100.

Definition string_of_Z (z : Z) : string :=
  NilZero.string_of_int (Z.to_int z).

Definition quote : string := String (ascii_of_nat 34) EmptyString.

Definition string_of_hundredths (n : Z) : string :=
  let a := Z.abs n in
  let frac := (a mod 100)%Z in
  ((if (n <? 0)%Z then "-" else "") ++ string_of_Z (a / 100) ++ "." ++
   (if (frac mod 10 =? 0)%Z then string_of_Z (frac / 10)
    else if (frac <? 10)%Z then "0" ++ string_of_Z frac
    else string_of_Z frac))%string.

Definition string_of_pynum (x : pynum Q) : string :=
  match x with
  | PyInt z => string_of_Z z
  | PyFloat q => string_of_hundredths (Qnum (Q_round2 q))
  end.

Definition json_field (key value : string) : string :=
  (quote ++ key ++ quote ++ ": " ++ value)%string.

Definition Q_json_dumps (m : metrics Q) : string :=
  ("{" ++ json_field "cpu" (string_of_pynum (cpu m)) ++ ", "
       ++ json_field "memory" (string_of_pynum (memory m)) ++ ", "
       ++ json_field "disk" (string_of_pynum (disk m)) ++ ", "
       ++ json_field "disk_read" (string_of_pynum (disk_read m)) ++ ", "
       ++ json_field "disk_write" (string_of_pynum (disk_write m)) ++ ", "
       ++ match error m with
          | Some e => json_field "error" (quote ++ e ++ quote) ++ ", "
          | None => ""
          end
       ++ json_field "timestamp" (quote ++ timestamp m ++ quote) ++ "}")%string.

#[export] Instance QRuntime : PyRuntime Q := {
  float_of_int := inject_Z;
  float_div := Qdiv;
  float_is_zero := fun x => (Qnum x =? 0)%Z;
  round2 := Q_round2;
  json_dumps := Q_json_dumps
}.

(** Two orders for the examples: the new member is listed last, or
    first. *)
Definition appended_last : SetOrder :=
  {| order_after_add := fun x s => s ++ [x] |}.

Definition newest_first : SetOrder :=
  {| order_after_add := fun x s => x :: s |}.

(** ** Example inputs *)

Definition no_failure : WebSocket -> option string := fun _ => None.

Definition fails_for (ws : WebSocket) (msg : string) : WebSocket -> option string :=
  fun ws' => if Nat.eqb ws ws' then Some msg else None.

Definition quiet : WebSocket -> list handler_event := fun _ => [].

Definition reading_ok : psutil_reading Q :=
  {| cpu_percent := Value (25 # 2)%Q;
     virtual_memory_percent := Value (40 # 1)%Q;
     disk_usage_percent := Value (613 # 10)%Q;
     disk_io_counters := Value (Some (mk_sdiskio 5000 9001));
     now_isoformat := "2024-05-01T12:00:00" |}.

Definition reading_broken : psutil_reading Q :=
  {| cpu_percent := Value (25 # 2)%Q;
     virtual_memory_percent := Failure "access denied";
     disk_usage_percent := Value (613 # 10)%Q;
     disk_io_counters := Value (Some (mk_sdiskio 5000 9001));
     now_isoformat := "2024-05-01T12:00:02" |}.

(** Two subscribers, the loop running, counters read once at import. *)
Definition world0 : world :=
  {| clients := [1; 2];
     broadcast_task := Some TaskPending;
     last_io_stats := Some (mk_sdiskio 1000 1000);
     log := [] |}.

Definition world_empty : world :=
  {| clients := [];
     broadcast_task := Some TaskPending;
     last_io_stats := Some (mk_sdiskio 1000 1000);
     log := [] |}.

Definition world_no_task : world :=
  {| clients := [1; 2];
     broadcast_task := None;
     last_io_stats := Some (mk_sdiskio 1000 1000);
     log := [] |}.

(** A pass with nothing going wrong and nobody interfering. *)
Definition env_quiet : tick_env Q :=
  {| cancel := None;
     during_sleep := [];
     psutil := reading_ok;
     send_raises := no_failure;
     sends_started := true;
     during_gather := [];
     close_raises := no_failure;
     during_close := quiet |}.

(** The send to subscriber 1 fails, and its handler, seeing the same dead
    connection, leaves during the fan-out. *)
Definition env_first_drops : tick_env Q :=
  {| cancel := None;
     during_sleep := [];
     psutil := reading_ok;
     send_raises := fails_for 1 "connection closed";
     sends_started := true;
     during_gather := [HLeave 1 WebSocketDisconnect];
     close_raises := no_failure;
     during_close := quiet |}.

(** The send to subscriber 2 fails while subscriber 1, served well,
    disconnects during the fan-out. *)
Definition env_other_leaves : tick_env Q :=
  {| cancel := None;
     during_sleep := [];
     psutil := reading_ok;
     send_raises := fails_for 2 "broken pipe";
     sends_started := true;
     during_gather := [HLeave 1 WebSocketDisconnect];
     close_raises := no_failure;
     during_close := quiet |}.


Definition env_broken_sample : tick_env Q :=
  {| cancel := None;
     during_sleep := [];
     psutil := reading_broken;
     send_raises := no_failure;
     sends_started := true;
     during_gather := [];
     close_raises := no_failure;
     during_close := quiet |}.

Definition shutdown_all_closes_fail : shutdown_env :=
  {| during_task_wait := [];
     shutdown_close_raises := fun _ => Some "already closed";
     during_shutdown_close := quiet |}.

(** The interval of the examples: two seconds. *)
Definition two_seconds : Q := (2 # 1)%Q.

(** ** What a log shows *)

(** The delivery attempts, the closes, the samples and the cancellations a
    log records, in order. *)
Definition sent (l : list event) : list (WebSocket * string) :=
  flat_map (fun e => match e with EvSend ws m => [(ws, m)] | _ => [] end) l.

Definition closed (l : list event) : list WebSocket :=
  flat_map (fun e => match e with EvClose ws => [ws] | _ => [] end) l.

Definition samples (l : list event) : list unit :=
  flat_map (fun e => match e with EvSample => [tt] | _ => [] end) l.

Definition cancels (l : list event) : list unit :=
  flat_map (fun e => match e with EvCancelTask => [tt] | _ => [] end) l.

(** The record of the error branch. *)
Definition degraded {float} (msg now : string) : metrics float :=
  {| cpu := PyInt 0;
     memory := PyInt 0;
     disk := PyInt 0;
     disk_read := PyInt 0;
     disk_write := PyInt 0;
     error := Some msg;
     timestamp := now |}.

(** The world once a call of [get_metrics] has been recorded. *)
Definition sampling (w : world) : world := snd (emit EvSample w).

(** ** Auxiliary notions *)

(** A stretch of log in which nothing was sent, closed, sampled or
    cancelled: what the handlers write. *)
Definition handler_noise (l : list event) : Prop :=
  sent l = [] /\ closed l = [] /\ samples l = [] /\ cancels l = [].

(** [w'] differs from [w] by a change of the registry and by handler
    entries at the end of the log. *)
Definition handlers_ran (w w' : world) : Prop :=
  broadcast_task w' = broadcast_task w /\
  last_io_stats w' = last_io_stats w /\
  exists l, log w' = log w ++ l /\ handler_noise l.

(** [w'] differs from [w] by a change of the registry and by entries at
    the end of the log among which there is no send, no sample and no
    cancellation: what pruning and the handlers write. *)
Definition pruning_ran (w w' : world) : Prop :=
  broadcast_task w' = broadcast_task w /\
  last_io_stats w' = last_io_stats w /\
  exists l, log w' = log w ++ l /\
            sent l = [] /\ samples l = [] /\ cancels l = [].

(** What a send yields as its entry of the result list. *)
Definition send_result {float} (env : tick_env float) (ws : WebSocket) : result unit :=
  match send_raises env ws with
  | Some msg => Raise (PyException msg)
  | None => Ret tt
  end.

(** The world once the interval sleep of a pass has been recorded and the
    handlers have run. *)
Definition after_sleep {float} {O : SetOrder} (env : tick_env float) (w : world) : world :=
  snd (run_handlers (during_sleep env) (snd (emit EvSleep w))).

(** The world once the fan-out of [message] to the registry of [w], when
    it takes place, has been recorded and the handlers have run. *)
Definition after_gather {float} {O : SetOrder} (env : tick_env float) (message : string)
    (w : world) : world :=
  snd (run_handlers (during_gather env)
         (mk_world (clients w) (broadcast_task w) (last_io_stats w)
                   (log w ++ if sends_made env
                             then map (fun ws => EvSend ws message) (clients w)
                             else []))).


(** The world after one call of [get_metrics] for each of the readings,
    in order. *)
Fixpoint after_samples {float} {RT : PyRuntime float} (UPDATE_INTERVAL : float)
    (readings : list (psutil_reading float)) (w : world) : world :=
  match readings with
  | [] => w
  | reading :: rest =>
      after_samples UPDATE_INTERVAL rest
        (snd (get_metrics UPDATE_INTERVAL reading w))
  end.

(** Every one of these calls returns a record with an [error] entry. *)
Fixpoint all_degraded {float} {RT : PyRuntime float} (UPDATE_INTERVAL : float)
    (readings : list (psutil_reading float)) (w : world) : Prop :=
  match readings with
  | [] => True
  | reading :: rest =>
      match fst (get_metrics UPDATE_INTERVAL reading w) with
      | Ret r => error r <> None
      | _ => False
      end /\
      all_degraded UPDATE_INTERVAL rest
        (snd (get_metrics UPDATE_INTERVAL reading w))
  end.

(** Whether the send to [ws] raises. *)
Definition send_failed {float} (env : tick_env float) (ws : WebSocket) : bool :=
  match send_raises env ws with
  | Some _ => true
  | None => false
  end.

(** The claim as the specification has it, for a handler that registered
    [ws], waited while [others] ran and whose receive loop was left by
    [e]: the connection is out of the registry, an exception derived from
    [Exception] is swallowed, and after a transport error (any such
    exception but the peer's disconnect) the connection has been
    closed. *)
Definition handler_exit_as_specified {O : SetOrder} (ws : WebSocket)
    (others : world -> world) (e : exn) (w : world) : Prop :=
  let out := websocket_endpoint ws None others e w in
  ~ In ws (clients (snd out)) /\
  (is_Exception e = true -> fst out = Ret tt) /\
  (is_Exception e = true -> e <> WebSocketDisconnect ->
   In ws (closed (log (snd out)))).

(** The rest of the program prunes connection [ws]: it closes it and
    removes it from the registry, as lines 112-115 do. *)
Definition pruned_meanwhile (ws : WebSocket) (w : world) : world :=
  snd ((emit (EvClose ws) ;; clients_discard ws) w).

(** ** Notions for the further properties *)

(** What a handler step does to the registry. *)
Definition handler_clients {O : SetOrder} (h : handler_event) (s : list WebSocket)
  : list WebSocket :=
  match h with
  | HConnect ws => set_add ws s
  | HLeave ws _ => set_discard ws s
  end.

(** The connection a handler step is about. *)
Definition handler_subject (h : handler_event) : WebSocket :=
  match h with
  | HConnect ws => ws
  | HLeave ws _ => ws
  end.

(** Connection [x] is accepted by a handler during one of the awaits of
    the pass. *)
Definition connects_during {float} (env : tick_env float) (x : WebSocket) : Prop :=
  In (HConnect x) (during_sleep env) \/
  In (HConnect x) (during_gather env) \/
  exists ws, In (HConnect x) (during_close env ws).

(** The handler of connection [x] leaves during one of the awaits of the
    pass. *)
Definition leaves_during {float} (env : tick_env float) (x : WebSocket) : Prop :=
  (exists e, In (HLeave x e) (during_sleep env)) \/
  (exists e, In (HLeave x e) (during_gather env)) \/
  exists ws e, In (HLeave x e) (during_close env ws).

(** No handler runs during the fan-out or the closes of the pass. *)
Definition undisturbed {float} (env : tick_env float) : Prop :=
  during_gather env = [] /\ forall ws, during_close env ws = [].

(** Whether the pass gets as far as sampling: its sleep is not cancelled
    and somebody is registered when it ends. *)
Definition reaches_sampling {float} {O : SetOrder} (env : tick_env float) (w : world) : bool :=
  negb (cancelled_at env AtSleep) &&
  match clients (after_sleep env w) with
  | [] => false
  | _ :: _ => true
  end.

(** Registry [s'] comes from registry [s] by steps that keep it free of
    duplicates and add nobody but connections satisfying [P]. *)
Definition registry_kept (P : WebSocket -> Prop) (s s' : list WebSocket) : Prop :=
  (NoDup s -> NoDup s') /\ forall x, In x s' -> In x s \/ P x.

(** Further example inputs: a pass cancelled while it closes subscriber 2,
    whose send failed; counters missing since import; an interval of
    zero. *)
Definition env_cancelled_closing : tick_env Q :=
  {| cancel := Some (AtClose 2);
     during_sleep := [];
     psutil := reading_ok;
     send_raises := fails_for 2 "broken pipe";
     sends_started := true;
     during_gather := [];
     close_raises := no_failure;
     during_close := quiet |}.

Definition env_second_fails : tick_env Q :=
  {| cancel := None;
     during_sleep := [];
     psutil := reading_ok;
     send_raises := fails_for 2 "broken pipe";
     sends_started := true;
     during_gather := [];
     close_raises := fails_for 2 "already closed";
     during_close := quiet |}.

Definition env_newcomer : tick_env Q :=
  {| cancel := None;
     during_sleep := [HConnect 3];
     psutil := reading_ok;
     send_raises := no_failure;
     sends_started := true;
     during_gather := [HLeave 1 WebSocketDisconnect; HConnect 4];
     close_raises := no_failure;
     during_close := quiet |}.

Definition world_no_counters : world :=
  {| clients := [1; 2];
     broadcast_task := Some TaskPending;
     last_io_stats := None;
     log := [] |}.

Definition world_task_cancelled : world :=
  {| clients := [1; 2];
     broadcast_task := Some (TaskDone (Some CancelledError));
     last_io_stats := Some (mk_sdiskio 1000 1000);
     log := [] |}.

Definition reading_later : psutil_reading Q :=
  {| cpu_percent := Value (30 # 1)%Q;
     virtual_memory_percent := Value (41 # 1)%Q;
     disk_usage_percent := Value (613 # 10)%Q;
     disk_io_counters := Value (Some (mk_sdiskio 7000 9501));
     now_isoformat := "2024-05-01T12:00:04" |}.

Definition shutdown_quiet : shutdown_env :=
  {| during_task_wait := [];
     shutdown_close_raises := no_failure;
     during_shutdown_close := quiet |}.

Definition zero_seconds : Q := (0 # 1)%Q.

(** * Properties *)

(** ** The metrics source *)

Section MetricsSourceFacts.

Context {float : Type} {RT : PyRuntime float} {O : SetOrder}.
Variable UPDATE_INTERVAL : float.

Ltac run_sample :=
  unfold get_metrics, get_metrics_try, get_metrics_except,
    try_except_Exception, sampling, bind, emit, call, attr_read_bytes,
    attr_write_bytes, truediv, get_last_io_stats, put_last_io_stats,
    ret, raise, degraded; simpl.

(** The two ways a sample can go: every reading succeeds, both counter
    records exist and the interval is not zero, or the body raises an
    exception derived from [Exception] before it has stored anything. *)
Lemma get_metrics_cases (env : psutil_reading float) (w : world) :
  (exists c m d cur last,
      cpu_percent env = Value c /\
      virtual_memory_percent env = Value m /\
      disk_usage_percent env = Value d /\
      disk_io_counters env = Value (Some cur) /\
      last_io_stats w = Some last /\
      float_is_zero UPDATE_INTERVAL = false /\
      let r := {| cpu := PyFloat (round2 c);
                  memory := PyFloat (round2 m);
                  disk := PyFloat (round2 d);
                  disk_read :=
                    PyFloat (round2 (float_div
                      (float_of_int (read_bytes cur - read_bytes last))
                      UPDATE_INTERVAL));
                  disk_write :=
                    PyFloat (round2 (float_div
                      (float_of_int (write_bytes cur - write_bytes last))
                      UPDATE_INTERVAL));
                  error := None;
                  timestamp := now_isoformat env |} in
      let w' := mk_world (clients w) (broadcast_task w) (Some cur)
                         (log w ++ [EvSample]) in
      get_metrics_try UPDATE_INTERVAL env (sampling w) = (Ret r, w') /\
      get_metrics UPDATE_INTERVAL env w = (Ret r, w'))
  \/
  (exists msg,
      get_metrics_try UPDATE_INTERVAL env (sampling w)
        = (Raise (PyException msg), sampling w) /\
      get_metrics UPDATE_INTERVAL env w
        = (Ret (degraded msg (now_isoformat env)), sampling w)).
Proof.
  destruct env as [c m d io now]; destruct w as [cl bt last lg].
  destruct c as [c|e]; [|right; exists e; run_sample; auto].
  destruct m as [m|e]; [|right; exists e; run_sample; auto].
  destruct d as [d|e]; [|right; exists e; run_sample; auto].
  destruct io as [io|e]; [|right; exists e; run_sample; auto].
  destruct io as [cur|]; [|right; eexists; run_sample; eauto].
  destruct last as [last|]; [|right; eexists; run_sample; eauto].
  destruct (float_is_zero UPDATE_INTERVAL) eqn:Hz.
  - right; eexists; run_sample; rewrite Hz; simpl; eauto.
  - left; exists c, m, d, cur, last; simpl; repeat split; auto;
      run_sample; rewrite Hz; simpl; reflexivity.
Qed.

(** A sample leaves the registry and the task alone and records itself
    once. *)
Lemma get_metrics_frame (env : psutil_reading float) (w : world) :
  exists r w',
    get_metrics UPDATE_INTERVAL env w = (Ret r, w') /\
    clients w' = clients w /\
    broadcast_task w' = broadcast_task w /\
    log w' = log w ++ [EvSample].
Proof.
  destruct (get_metrics_cases env w)
    as [(c & m & d & cur & last & _ & _ & _ & _ & _ & _ & _ & H) | (msg & _ & H)];
    rewrite H; eexists; eexists; split; try reflexivity; simpl; auto.
Qed.

End MetricsSourceFacts.

(** ** Logs and the handlers *)

Section LogFacts.

Context {O : SetOrder}.

Lemma sent_app (l l' : list event) : sent (l ++ l') = sent l ++ sent l'.
Proof. apply flat_map_app. Qed.

Lemma closed_app (l l' : list event) : closed (l ++ l') = closed l ++ closed l'.
Proof. apply flat_map_app. Qed.

Lemma samples_app (l l' : list event) : samples (l ++ l') = samples l ++ samples l'.
Proof. apply flat_map_app. Qed.

Lemma cancels_app (l l' : list event) : cancels (l ++ l') = cancels l ++ cancels l'.
Proof. apply flat_map_app. Qed.

Lemma handler_noise_app (l l' : list event) :
  handler_noise l -> handler_noise l' -> handler_noise (l ++ l').
Proof.
  intros (H1 & H2 & H3 & H4) (H1' & H2' & H3' & H4'); unfold handler_noise.
  rewrite sent_app, closed_app, samples_app, cancels_app.
  rewrite H1, H2, H3, H4, H1', H2', H3', H4'; auto.
Qed.

Lemma handlers_ran_refl (w : world) : handlers_ran w w.
Proof.
  repeat split; exists []; rewrite app_nil_r; repeat split; reflexivity.
Qed.

Lemma handlers_ran_trans (w1 w2 w3 : world) :
  handlers_ran w1 w2 -> handlers_ran w2 w3 -> handlers_ran w1 w3.
Proof.
  intros (Ht & Hi & l & Hl & Hn) (Ht' & Hi' & l' & Hl' & Hn').
  repeat split; try congruence.
  exists (l ++ l'); split; [|apply handler_noise_app; assumption].
  rewrite Hl', Hl, app_assoc; reflexivity.
Qed.

Lemma run_handler_ran (h : handler_event) (w : world) :
  handlers_ran w (snd (run_handler h w)).
Proof.
  destruct h as [ws | ws e]; unfold run_handler.
  - unfold websocket_endpoint_enter, clients_add, bind, emit, get_clients,
      put_clients, ret; simpl.
    repeat split; exists [EvAccept ws; EvConnected ws].
    rewrite <- app_assoc; repeat split; reflexivity.
  - unfold websocket_endpoint_leave, try_finally, try_except_Exception,
      clients_contains, clients_discard, bind, emit, get_clients,
      put_clients, ret, raise; simpl.
    destruct (is_Exception e), (set_contains ws (clients w)); simpl;
      repeat split; exists [EvDisconnected ws]; repeat split; reflexivity.
Qed.

Lemma run_handlers_ran (hs : list handler_event) (w : world) :
  fst (run_handlers hs w) = Ret tt /\
  handlers_ran w (snd (run_handlers hs w)).
Proof.
  revert w; induction hs as [|h hs IH]; intros w; simpl.
  - split; [reflexivity | apply handlers_ran_refl].
  - destruct (IH (snd (run_handler h w))) as [Hr Hf]; split; [exact Hr|].
    eapply handlers_ran_trans; [apply run_handler_ran | exact Hf].
Qed.

Lemma pruning_ran_refl (w : world) : pruning_ran w w.
Proof.
  repeat split; exists []; rewrite app_nil_r; repeat split; reflexivity.
Qed.

Lemma pruning_ran_trans (w1 w2 w3 : world) :
  pruning_ran w1 w2 -> pruning_ran w2 w3 -> pruning_ran w1 w3.
Proof.
  intros (Ht & Hi & l & Hl & H1 & H2 & H3) (Ht' & Hi' & l' & Hl' & H1' & H2' & H3').
  repeat split; try congruence.
  exists (l ++ l'); rewrite sent_app, samples_app, cancels_app.
  rewrite H1, H2, H3, H1', H2', H3', Hl', Hl, app_assoc; auto.
Qed.

Lemma handlers_ran_pruning (w w' : world) : handlers_ran w w' -> pruning_ran w w'.
Proof.
  intros (Ht & Hi & l & Hl & H1 & _ & H3 & H4).
  repeat split; auto; exists l; auto.
Qed.

Lemma await_point_run (cancelled : bool) (hs : list handler_event) (w : world) :
  await_point cancelled hs w
  = (if cancelled then Raise CancelledError else Ret tt,
     snd (run_handlers hs w)).
Proof.
  unfold await_point, bind.
  destruct (run_handlers_ran hs w) as [Hr _].
  destruct (run_handlers hs w) as [r w']; simpl in *; subst r.
  destruct cancelled; reflexivity.
Qed.

(** A close whose exceptions the caller swallows: the close is recorded,
    the handlers run, and only a cancellation gets through. *)
Lemma ws_close_swallowed (ws : WebSocket) (cancelled : bool)
    (hs : list handler_event) (raises : option string) (w : world) :
  try_except_Exception (ws_close ws cancelled hs raises) (fun _ => ret tt) w
  = (if cancelled then Raise CancelledError else Ret tt,
     snd (run_handlers hs (snd (emit (EvClose ws) w)))).
Proof.
  unfold try_except_Exception, ws_close, bind at 1.
  unfold emit at 1; unfold bind.
  rewrite await_point_run.
  destruct cancelled; simpl; [reflexivity|].
  destruct raises; reflexivity.
Qed.

Lemma ws_close_swallowed_ran (ws : WebSocket) (hs : list handler_event) (w : world) :
  let w' := snd (run_handlers hs (snd (emit (EvClose ws) w))) in
  pruning_ran w w' /\
  exists l, log w' = log w ++ EvClose ws :: l /\ handler_noise l.
Proof.
  destruct (run_handlers_ran hs (snd (emit (EvClose ws) w)))
    as [_ (Ht & Hi & l & Hl & Hn)].
  simpl in *; split.
  - repeat split; auto.
    exists (EvClose ws :: l); rewrite Hl, <- app_assoc.
    destruct Hn as (H1 & _ & H3 & H4); simpl; auto.
  - exists l; rewrite Hl, <- app_assoc; auto.
Qed.

(** ** One pass of the broadcast loop *)

End LogFacts.

Section BroadcastLoopFacts.

Context {float : Type} {RT : PyRuntime float} {O : SetOrder}.
Variable UPDATE_INTERVAL : float.

Implicit Types (env : tick_env float) (w : world).

Lemma asyncio_sleep_run env w :
  asyncio_sleep env w
  = (if cancelled_at env AtSleep then Raise CancelledError else Ret tt,
     after_sleep env w).
Proof.
  unfold asyncio_sleep, after_sleep, bind at 1; unfold emit at 1.
  apply await_point_run.
Qed.

Lemma after_sleep_ran env w : pruning_ran w (after_sleep env w).
Proof.
  unfold after_sleep.
  destruct (run_handlers_ran (during_sleep env) (snd (emit EvSleep w)))
    as [_ (Ht & Hi & l & Hl & H1 & _ & H3 & H4)]; simpl in *.
  repeat split; auto.
  exists (EvSleep :: l); rewrite Hl, <- app_assoc; simpl; auto.
Qed.

(** The fan-out: one attempt per target, in order, whatever the attempts
    before it yielded; the registry is not touched. *)
Lemma gather_sends env (message : string) (targets : list WebSocket) w :
  gather_return_exceptions
    (map (fun ws => safe_send env ws message) targets) w
  = (Ret (map (send_result env) targets),
     mk_world (clients w) (broadcast_task w) (last_io_stats w)
              (log w ++ map (fun ws => EvSend ws message) targets)).
Proof.
  revert w; induction targets as [|ws targets IH]; intros w; simpl.
  - destruct w; unfold ret; simpl; rewrite app_nil_r; reflexivity.
  - unfold safe_send at 1, send_result at 1, bind at 1, emit.
    destruct (send_raises env ws) as [msg|]; simpl;
      unfold bind; rewrite IH; simpl; rewrite <- app_assoc; reflexivity.
Qed.

Lemma sent_sends (message : string) (targets : list WebSocket) :
  sent (map (fun ws => EvSend ws message) targets)
  = map (fun ws => (ws, message)) targets.
Proof.
  induction targets as [|ws targets IH]; simpl; [|rewrite <- IH]; reflexivity.
Qed.

Lemma samples_sends (message : string) (targets : list WebSocket) :
  samples (map (fun ws => EvSend ws message) targets) = [].
Proof. induction targets; simpl; auto. Qed.

Lemma closed_sends (message : string) (targets : list WebSocket) :
  closed (map (fun ws => EvSend ws message) targets) = [].
Proof. induction targets; simpl; auto. Qed.

Lemma samples_maybe_sends (b : bool) (message : string)
    (targets : list WebSocket) :
  samples (if b then map (fun ws => EvSend ws message) targets else []) = [].
Proof. destruct b; [apply samples_sends | reflexivity]. Qed.

Lemma closed_maybe_sends (b : bool) (message : string)
    (targets : list WebSocket) :
  closed (if b then map (fun ws => EvSend ws message) targets else []) = [].
Proof. destruct b; [apply closed_sends | reflexivity]. Qed.

(** Pruning one pair: nothing is sent or sampled, and only a cancellation
    that reaches the loop during the close gets out. *)
Lemma prune_ran env (pair : WebSocket * result unit) w :
  pruning_ran w (snd (prune env pair w)) /\
  (fst (prune env pair w) = Ret tt \/
   fst (prune env pair w) = Raise CancelledError /\
   cancel env = Some (AtClose (fst pair))).
Proof.
  destruct pair as [ws res]; unfold prune.
  destruct (isinstance_Exception res);
    [|simpl; split; [apply pruning_ran_refl | left; reflexivity]].
  unfold bind; rewrite ws_close_swallowed.
  destruct (ws_close_swallowed_ran ws (during_close env ws) w) as [Hp _].
  destruct (cancelled_at env (AtClose ws)) eqn:Hc; simpl.
  - split; [exact Hp | right; split; [reflexivity|]].
    unfold cancelled_at in Hc.
    destruct (cancel env) as [[| |ws']|]; simpl in Hc; try discriminate.
    apply Nat.eqb_eq in Hc; subst; reflexivity.
  - split; [|left; reflexivity].
    eapply pruning_ran_trans; [exact Hp|].
    repeat split; exists []; rewrite app_nil_r; auto.
Qed.

Lemma prune_loop_ran env (pairs : list (WebSocket * result unit)) w :
  pruning_ran w (snd (for_each pairs (prune env) w)) /\
  (fst (for_each pairs (prune env) w) = Ret tt \/
   fst (for_each pairs (prune env) w) = Raise CancelledError /\
   exists ws, cancel env = Some (AtClose ws)).
Proof.
  revert w; induction pairs as [|pair pairs IH]; intros w; simpl.
  - split; [apply pruning_ran_refl | left; reflexivity].
  - unfold bind.
    destruct (prune_ran env pair w) as [Hp Hr].
    destruct (prune env pair w) as [r w1]; simpl in *.
    destruct Hr as [Hr | [Hr Hc]]; subst r.
    + destruct (IH w1) as [Hp' Hr']; split; [|exact Hr'].
      eapply pruning_ran_trans; eassumption.
    + simpl; split; [exact Hp | right; split; eauto].
Qed.

(** A pass whose sleep is cancelled, or which finds nobody registered. *)
Lemma tick_cancelled_asleep env w :
  cancelled_at env AtSleep = true ->
  tick UPDATE_INTERVAL env w = (Raise CancelledError, after_sleep env w).
Proof.
  intros Hc; unfold tick, bind at 1.
  rewrite asyncio_sleep_run, Hc; reflexivity.
Qed.

Lemma tick_nobody env w :
  cancelled_at env AtSleep = false ->
  clients (after_sleep env w) = [] ->
  tick UPDATE_INTERVAL env w = (Ret tt, after_sleep env w).
Proof.
  intros Hc He; unfold tick, bind at 1.
  rewrite asyncio_sleep_run, Hc.
  unfold bind, get_clients; rewrite He; reflexivity.
Qed.

(** The gather of line 108 on the send coroutines of [targets]. *)
Lemma asyncio_gather_run env (message : string) (targets : list WebSocket) w :
  asyncio_gather env (map (fun ws => safe_send env ws message) targets) w
  = (if cancelled_at env AtGather then Raise CancelledError
     else Ret (map (send_result env) targets),
     snd (run_handlers (during_gather env)
            (mk_world (clients w) (broadcast_task w) (last_io_stats w)
                      (log w ++ if sends_made env
                                then map (fun ws => EvSend ws message) targets
                                else [])))).
Proof.
  unfold asyncio_gather, sends_made.
  destruct (cancelled_at env AtGather), (sends_started env); simpl;
    unfold bind; rewrite ?gather_sends, await_point_run; try reflexivity.
  destruct w; simpl; rewrite app_nil_r; reflexivity.
Qed.

(** A pass that reaches the fan-out: the sample is taken, the message is
    sent to the members registered at that moment, and the results are
    then paired with the members registered once the fan-out is over. *)
Lemma tick_fan_out env w :
  cancelled_at env AtSleep = false ->
  clients (after_sleep env w) <> [] ->
  exists m w2,
    get_metrics UPDATE_INTERVAL (psutil env) (after_sleep env w) = (Ret m, w2) /\
    clients w2 = clients (after_sleep env w) /\
    let w3 := after_gather env (json_dumps m) w2 in
    tick UPDATE_INTERVAL env w
    = if cancelled_at env AtGather then (Raise CancelledError, w3)
      else for_each (combine (clients w3) (map (send_result env) (clients w2)))
                    (prune env) w3.
Proof.
  intros Hc Hne.
  destruct (get_metrics_frame UPDATE_INTERVAL (psutil env) (after_sleep env w))
    as (m & w2 & Hm & Hcl & _ & _).
  exists m, w2; split; [exact Hm|]; split; [exact Hcl|].
  unfold tick, bind at 1.
  rewrite asyncio_sleep_run, Hc.
  unfold bind at 1, get_clients at 1.
  destruct (clients (after_sleep env w)) as [|ws rest] eqn:He; [congruence|].
  unfold bind at 1; rewrite Hm.
  unfold bind at 1, list_clients at 1, get_clients at 1.
  unfold bind at 1; rewrite asyncio_gather_run.
  unfold after_gather.
  destruct (cancelled_at env AtGather); [reflexivity|].
  unfold bind, list_clients, get_clients; reflexivity.
Qed.

Lemma after_gather_log env (message : string) w :
  broadcast_task (after_gather env message w) = broadcast_task w /\
  last_io_stats (after_gather env message w) = last_io_stats w /\
  exists l,
    log (after_gather env message w)
    = log w ++ (if sends_made env
                then map (fun ws => EvSend ws message) (clients w)
                else []) ++ l /\
    handler_noise l.
Proof.
  unfold after_gather.
  match goal with |- context [run_handlers ?hs ?w0] =>
    destruct (run_handlers_ran hs w0) as [_ (Ht & Hi & l & Hl & Hn)] end.
  simpl in *; repeat split; auto.
  exists l; rewrite Hl, <- app_assoc; auto.
Qed.

Lemma sends_made_uncancelled env :
  cancelled_at env AtGather = false -> sends_made env = true.
Proof. intros H; unfold sends_made; rewrite H; reflexivity. Qed.

(** What a pass sends when no cancellation keeps it from the fan-out: the
    one message to each member registered when the fan-out starts,
    whatever the sends yield and whatever the handlers do. *)
Lemma tick_sends env w :
  cancelled_at env AtSleep = false ->
  cancelled_at env AtGather = false ->
  clients (after_sleep env w) <> [] ->
  exists m w2,
    get_metrics UPDATE_INTERVAL (psutil env) (after_sleep env w) = (Ret m, w2) /\
    sent (log (snd (tick UPDATE_INTERVAL env w)))
    = sent (log w)
      ++ map (fun ws => (ws, json_dumps m)) (clients (after_sleep env w)).
Proof.
  intros Hc Hg Hne.
  destruct (tick_fan_out env w Hc Hne) as (m & w2 & Hm & Hcl & Ht).
  exists m, w2; split; [exact Hm|]; simpl in Ht; rewrite Ht; clear Ht.
  destruct (get_metrics_frame UPDATE_INTERVAL (psutil env) (after_sleep env w))
    as (m' & w2' & Hm' & _ & _ & Hl2).
  rewrite Hm in Hm'; inversion Hm'; subst m' w2'; clear Hm'.
  destruct (after_sleep_ran env w) as (_ & _ & l1 & Hl1 & Hs1 & _ & _).
  destruct (after_gather_log env (json_dumps m) w2) as (_ & _ & l3 & Hl3 & Hn3).
  rewrite (sends_made_uncancelled env Hg) in Hl3.
  assert (Hs3 : sent (log (after_gather env (json_dumps m) w2))
                = sent (log w) ++ map (fun ws => (ws, json_dumps m))
                                      (clients (after_sleep env w))).
  { rewrite Hl3, Hl2, Hl1, !sent_app, sent_sends, Hs1, Hcl.
    destruct Hn3 as (Hs & _); rewrite Hs; simpl.
    rewrite !app_nil_r; reflexivity. }
  rewrite Hg.
  match goal with |- context [for_each ?ps (prune env) ?w0] =>
    destruct (prune_loop_ran env ps w0) as [(_ & _ & l4 & Hl4 & Hs4 & _) _] end.
  rewrite Hl4, sent_app, Hs4, app_nil_r; exact Hs3.
Qed.

(** A pass cancelled at the gather before the send coroutines were started
    sends to nobody. *)
Lemma tick_cancelled_unstarted env w :
  cancelled_at env AtGather = true ->
  sends_started env = false ->
  sent (log (snd (tick UPDATE_INTERVAL env w))) = sent (log w).
Proof.
  intros Hg Hstarted.
  assert (Hmade : sends_made env = false)
    by (unfold sends_made; rewrite Hg, Hstarted; reflexivity).
  destruct (after_sleep_ran env w) as (_ & _ & l1 & Hl1 & Hs1 & _ & _).
  assert (Hsent1 : sent (log (after_sleep env w)) = sent (log w))
    by (rewrite Hl1, sent_app, Hs1, app_nil_r; reflexivity).
  destruct (cancelled_at env AtSleep) eqn:Hc.
  { rewrite tick_cancelled_asleep by exact Hc; exact Hsent1. }
  destruct (clients (after_sleep env w)) as [|ws rest] eqn:He.
  { rewrite tick_nobody by assumption; exact Hsent1. }
  destruct (tick_fan_out env w Hc) as (m & w2 & Hm & _ & Ht); [congruence|].
  destruct (get_metrics_frame UPDATE_INTERVAL (psutil env) (after_sleep env w))
    as (m' & w2' & Hm' & _ & _ & Hl2).
  rewrite Hm in Hm'; inversion Hm'; subst m' w2'; clear Hm'.
  destruct (after_gather_log env (json_dumps m) w2)
    as (_ & _ & l3 & Hl3 & (Hs3 & _)).
  simpl in Ht; rewrite Ht, Hg; simpl.
  rewrite Hl3, Hmade, Hl2, !sent_app, Hs3, Hsent1; simpl.
  rewrite !app_nil_r; reflexivity.
Qed.


End BroadcastLoopFacts.

(** ** The loop as a whole *)

Section WhileTrueFacts.

Context {float : Type} {RT : PyRuntime float} {O : SetOrder}.
Variable UPDATE_INTERVAL : float.

Implicit Types (env : tick_env float) (w : world).





Lemma uncancelled_at env (p : suspension) :
  cancel env = None -> cancelled_at env p = false.
Proof. intros H; unfold cancelled_at; rewrite H; reflexivity. Qed.

(** What the [except] clause makes of the body's outcome. *)
Lemma broadcast_metrics_loop_outcome (envs : list (tick_env float)) w :
  fst (broadcast_metrics_loop UPDATE_INTERVAL envs w)
  = match fst (while_True UPDATE_INTERVAL envs w) with
    | Raise CancelledError => Ret tt
    | r => r
    end.
Proof.
  unfold broadcast_metrics_loop, try_except_CancelledError, on_CancelledError.
  destruct (while_True UPDATE_INTERVAL envs w) as [[[]|[]|] w1]; reflexivity.
Qed.

Lemma snd_broadcast_metrics_loop (envs : list (tick_env float)) w :
  snd (broadcast_metrics_loop UPDATE_INTERVAL envs w)
  = snd (while_True UPDATE_INTERVAL envs w).
Proof.
  unfold broadcast_metrics_loop, try_except_CancelledError, on_CancelledError.
  destruct (while_True UPDATE_INTERVAL envs w) as [[[]|[]|] w1]; reflexivity.
Qed.





End WhileTrueFacts.

(** ** The registry *)

Section RegistryFacts.

Context {O : SetOrder}.

Lemma set_contains_In (x : WebSocket) (s : list WebSocket) :
  set_contains x s = true <-> In x s.
Proof.
  unfold set_contains; rewrite existsb_exists; split.
  - intros (y & Hin & Heq); apply Nat.eqb_eq in Heq; subst; exact Hin.
  - intros Hin; exists x; split; [exact Hin | apply Nat.eqb_refl].
Qed.

Lemma set_discard_In (x y : WebSocket) (s : list WebSocket) :
  In y (set_discard x s) <-> In y s /\ x <> y.
Proof.
  unfold set_discard; rewrite filter_In, negb_true_iff, Nat.eqb_neq; tauto.
Qed.

Lemma set_discard_absent (x : WebSocket) (s : list WebSocket) :
  ~ In x s -> set_discard x s = s.
Proof.
  induction s as [|y s IH]; simpl; intros Hn; [reflexivity|].
  destruct (Nat.eqb x y) eqn:E; simpl.
  - apply Nat.eqb_eq in E; subst; elim Hn; auto.
  - rewrite IH; auto.
Qed.

Lemma same_members_count (l l' : list WebSocket) :
  same_members l l' = true ->
  forall y, count_occ Nat.eq_dec l y = count_occ Nat.eq_dec l' y.
Proof.
  unfold same_members; rewrite forallb_forall; intros H y.
  destruct (in_dec Nat.eq_dec y (l ++ l')) as [Hin | Hn].
  - apply Nat.eqb_eq, H, Hin.
  - rewrite in_app_iff in Hn.
    assert (H1 : ~ In y l) by tauto.
    assert (H2 : ~ In y l') by tauto.
    apply (count_occ_not_In Nat.eq_dec) in H1.
    apply (count_occ_not_In Nat.eq_dec) in H2.
    congruence.
Qed.

(** However the set lists its members after an [add], they are the old
    ones and the new one, each once. *)
Lemma set_add_count (x : WebSocket) (s : list WebSocket) :
  set_contains x s = false ->
  forall y, count_occ Nat.eq_dec (set_add x s) y
            = count_occ Nat.eq_dec (s ++ [x]) y.
Proof.
  intros E y; unfold set_add; rewrite E.
  destruct (same_members (order_after_add x s) (s ++ [x])) eqn:Hm;
    [apply same_members_count; exact Hm | reflexivity].
Qed.

Lemma set_add_In (x y : WebSocket) (s : list WebSocket) :
  In y (set_add x s) <-> In y s \/ x = y.
Proof.
  destruct (set_contains x s) eqn:E.
  - unfold set_add; rewrite E.
    apply set_contains_In in E; split; [auto | intros [H | <-]; auto].
  - rewrite (count_occ_In Nat.eq_dec), (set_add_count _ _ E),
      <- (count_occ_In Nat.eq_dec), in_app_iff; simpl; tauto.
Qed.

Lemma set_add_NoDup (x : WebSocket) (s : list WebSocket) :
  NoDup s -> NoDup (set_add x s).
Proof.
  intros Hs; destruct (set_contains x s) eqn:E.
  - unfold set_add; rewrite E; exact Hs.
  - assert (Hn : ~ In x s).
    { intros Hin; apply set_contains_In in Hin; congruence. }
    assert (Hgrown : NoDup (s ++ [x])).
    { clear E; induction Hs as [|y s Hy Hs IH]; simpl.
      - constructor; [simpl; tauto | constructor].
      - constructor.
        + rewrite in_app_iff; simpl; intros [H | [H | []]]; [tauto|].
          subst; apply Hn; simpl; auto.
        + apply IH; intros H; apply Hn; simpl; auto. }
    apply (NoDup_count_occ Nat.eq_dec); intros y.
    rewrite (set_add_count _ _ E).
    apply (NoDup_count_occ Nat.eq_dec); exact Hgrown.
Qed.

Lemma set_discard_NoDup (x : WebSocket) (s : list WebSocket) :
  NoDup s -> NoDup (set_discard x s).
Proof. apply NoDup_filter. Qed.

(** ** The handler *)

Lemma clients_discard_absent (ws : WebSocket) (w : world) :
  ~ In ws (clients w) -> clients_discard ws w = (Ret tt, w).
Proof.
  intros Hn; destruct w as [cl bt io lg]; simpl in Hn.
  unfold clients_discard, bind, get_clients, put_clients; simpl.
  rewrite set_discard_absent by exact Hn; reflexivity.
Qed.

(** Leaving: the connection is out of the registry afterwards, one line is
    written to the log, and only an exception that does not derive from
    [Exception] is passed on. *)
Lemma websocket_endpoint_leave_run (ws : WebSocket) (e : exn) (w : world) :
  websocket_endpoint_leave ws e w
  = (if is_Exception e then Ret tt else Raise e,
     mk_world (set_discard ws (clients w)) (broadcast_task w)
              (last_io_stats w) (log w ++ [EvDisconnected ws])).
Proof.
  destruct w as [cl bt io lg].
  assert (Hd : set_contains ws cl = false -> set_discard ws cl = cl).
  { intros E; apply set_discard_absent; intros Hin.
    apply set_contains_In in Hin; congruence. }
  cbv beta iota zeta delta
    [websocket_endpoint_leave try_finally try_except_Exception
     clients_contains clients_discard bind emit get_clients put_clients
     ret raise clients broadcast_task last_io_stats log].
  destruct (is_Exception e), (set_contains ws cl);
    cbv beta iota; try rewrite Hd by reflexivity; reflexivity.
Qed.

Lemma websocket_endpoint_enter_run (ws : WebSocket) (w : world) :
  websocket_endpoint_enter ws None w
  = (Ret tt,
     mk_world (set_add ws (clients w)) (broadcast_task w) (last_io_stats w)
              (log w ++ [EvAccept ws; EvConnected ws])).
Proof.
  unfold websocket_endpoint_enter, clients_add, bind, emit, get_clients,
    put_clients, ret; simpl.
  rewrite <- app_assoc; reflexivity.
Qed.

(** ** The lifecycle hooks *)

(** The startup hook creates the task when there is none or when the old
    one is done, and leaves a running one alone. *)
Lemma on_startup_run (w : world) :
  fst (on_startup w) = Ret tt /\
  clients (snd (on_startup w)) = clients w /\
  match broadcast_task w with
  | Some TaskPending | Some TaskCancelling =>
      broadcast_task (snd (on_startup w)) = broadcast_task w /\
      log (snd (on_startup w)) = log w ++ [EvBanner]
  | _ =>
      broadcast_task (snd (on_startup w)) = Some TaskPending /\
      log (snd (on_startup w)) = log w ++ [EvCreateTask; EvBanner]
  end.
Proof.
  destruct w as [cl [[| |r]|] io lg]; cbn; rewrite <- ?app_assoc; auto.
Qed.

(** The closing loop of the hook: every member of the snapshot is closed,
    in order, whether or not the closes before it failed. *)
Lemma shutdown_closing_loop (env : shutdown_env) (snapshot : list WebSocket)
    (w : world) :
  let out :=
    for_each snapshot
      (fun ws =>
         try_except_Exception
           (ws_close ws false (during_shutdown_close env ws)
                     (shutdown_close_raises env ws))
           (fun _ => ret tt)) w in
  fst out = Ret tt /\
  broadcast_task (snd out) = broadcast_task w /\
  last_io_stats (snd out) = last_io_stats w /\
  exists l, log (snd out) = log w ++ l /\
            closed l = snapshot /\ cancels l = [] /\
            sent l = [] /\ samples l = [].
Proof.
  revert w; induction snapshot as [|ws snapshot IH]; intros w; simpl.
  - repeat split; exists []; rewrite app_nil_r; auto.
  - unfold bind; rewrite ws_close_swallowed.
    destruct (ws_close_swallowed_ran ws (during_shutdown_close env ws) w)
      as [(Ht & Hi & _) (l & Hl & Hs & Hc & Hsa & Hca)].
    match goal with |- context [for_each snapshot ?f ?w0] =>
      destruct (IH w0) as (Hr & Ht' & Hi' & l' & Hl' & Hc' & Hca' & Hs' & Hsa') end.
    simpl in *.
    split; [exact Hr|]; split; [congruence|]; split; [congruence|].
    exists (EvClose ws :: l ++ l').
    rewrite Hl', Hl, <- app_assoc; simpl.
    rewrite closed_app, cancels_app, sent_app, samples_app.
    rewrite Hs, Hc, Hsa, Hca, Hc', Hca', Hs', Hsa'; auto.
Qed.

(** Lines 151-156 as a whole: the members registered when the loop starts
    are closed, then the registry is emptied. *)
Lemma close_all_clients_run (env : shutdown_env) (w : world) :
  exists w',
    close_all_clients env w = (Ret tt, w') /\
    clients w' = [] /\
    broadcast_task w' = broadcast_task w /\
    last_io_stats w' = last_io_stats w /\
    exists l, log w' = log w ++ l /\
              closed l = clients w /\ cancels l = [] /\
              sent l = [] /\ samples l = [].
Proof.
  unfold close_all_clients, bind at 1, list_clients, get_clients.
  unfold bind.
  destruct (shutdown_closing_loop env (clients w) w)
    as (Hr & Ht & Hi & l & Hl & Hc & Hca & Hs & Hsa).
  match goal with |- context [for_each ?s ?f w] =>
    destruct (for_each s f w) as [r w1] end.
  simpl in *; subst r.
  eexists; split; [reflexivity|]; simpl.
  repeat split; auto; exists l; auto.
Qed.

(** Lines 145-150 when the loop is running: the cancellation is requested,
    the handlers may run while the hook waits, and the task ends by
    returning. *)
Lemma stop_broadcast_task_running (env : shutdown_env) (w : world) :
  broadcast_task w = Some TaskPending ->
  exists w',
    stop_broadcast_task env w = (Ret tt, w') /\
    broadcast_task w' = Some (TaskDone None) /\
    last_io_stats w' = last_io_stats w /\
    clients w'
    = clients (snd (run_handlers (during_task_wait env)
                      (snd (task_cancel TaskPending w)))) /\
    exists l, log w' = log w ++ EvCancelTask :: l /\ handler_noise l.
Proof.
  intros Ht.
  unfold stop_broadcast_task, bind at 1, get_broadcast_task at 1; rewrite Ht.
  unfold bind at 1.
  destruct (run_handlers_ran (during_task_wait env)
              (snd (task_cancel TaskPending w)))
    as [Hr (Ht' & Hi' & l & Hl & Hn)].
  destruct (run_handlers (during_task_wait env)
              (snd (task_cancel TaskPending w))) as [r w1] eqn:Hrun.
  simpl in Hr, Ht', Hi', Hl |- *; subst r.
  unfold task_cancel, bind, emit, put_broadcast_task in Hrun |- *.
  simpl in Hrun |- *.
  unfold try_except_Exception, bind, get_broadcast_task; simpl.
  unfold await_task, bind; rewrite Hrun.
  unfold throw_into_broadcast_metrics_loop, try_except_CancelledError,
    on_CancelledError, raise, ret, put_broadcast_task; simpl.
  eexists; split; [reflexivity|]; simpl.
  unfold task_cancel, bind, emit, put_broadcast_task in Hi', Hl; simpl in Hi', Hl.
  repeat split; auto.
  exists l; rewrite Hl, <- app_assoc; auto.
Qed.

Lemma stop_broadcast_task_absent (env : shutdown_env) (w : world) :
  broadcast_task w = None -> stop_broadcast_task env w = (Ret tt, w).
Proof.
  intros Ht; unfold stop_broadcast_task, bind, get_broadcast_task.
  rewrite Ht; reflexivity.
Qed.

(** ** The prune when nobody interferes

    With no handler running during the fan-out or the closes, and no
    cancellation, line 109 lists the registry the fan-out used, and the
    prune does what it is meant to do: the members whose send failed, and
    only they, are closed and removed. *)

End RegistryFacts.

Section UndisturbedPrune.

Context {float : Type} {RT : PyRuntime float} {O : SetOrder}.
Variable UPDATE_INTERVAL : float.
Variable env : tick_env float.

Hypothesis not_cancelled : cancel env = None.
Hypothesis closes_undisturbed : forall ws, during_close env ws = [].

Lemma prune_undisturbed (ws : WebSocket) (w : world) :
  prune env (ws, send_result env ws) w
  = (Ret tt,
     if send_failed env ws
     then mk_world (set_discard ws (clients w)) (broadcast_task w)
                   (last_io_stats w) (log w ++ [EvClose ws])
     else w).
Proof.
  unfold prune, send_result, send_failed.
  destruct (send_raises env ws) as [msg|]; simpl; [|reflexivity].
  unfold bind; rewrite ws_close_swallowed.
  rewrite uncancelled_at by exact not_cancelled.
  rewrite closes_undisturbed; reflexivity.
Qed.

Lemma prune_loop_undisturbed (l : list WebSocket) (w : world) :
  let out := for_each (combine l (map (send_result env) l)) (prune env) w in
  fst out = Ret tt /\
  (forall x, In x (clients (snd out)) <->
             In x (clients w) /\ ~ (In x l /\ send_failed env x = true)) /\
  closed (log (snd out)) = closed (log w) ++ filter (send_failed env) l.
Proof.
  revert w; induction l as [|ws l IH]; intros w;
    cbn [combine map for_each filter].
  - simpl; rewrite app_nil_r; repeat split; tauto.
  - unfold bind; rewrite prune_undisturbed.
    match goal with |- context [for_each _ _ ?w0] =>
      destruct (IH w0) as (Hr & Hin & Hcl) end.
    split; [exact Hr|]; split.
    + intros x; rewrite Hin.
      destruct (send_failed env ws) eqn:Hf; simpl.
      * rewrite set_discard_In; split.
        -- intros [[Hx Hne] Hn]; split; [exact Hx|].
           intros [[-> | Hl] Hfx]; [congruence | tauto].
        -- intros [Hx Hn]; split; [split; [exact Hx|] |].
           ++ intros ->; apply Hn; auto.
           ++ intros [Hl Hfx]; apply Hn; auto.
      * split; intros [Hx Hn]; (split; [exact Hx|]).
        -- intros [[-> | Hl] Hfx]; [congruence | tauto].
        -- intros [Hl Hfx]; apply Hn; auto.
    + rewrite Hcl; destruct (send_failed env ws); simpl; [|reflexivity].
      rewrite closed_app, <- app_assoc; reflexivity.
Qed.

Hypothesis gather_undisturbed : during_gather env = [].

(** A whole pass: every member registered when the sleep ends is sent
    the message; those whose send failed are closed and are out of the
    registry at the end of the pass, the others stay. *)
Lemma tick_undisturbed (w : world) :
  clients (after_sleep env w) <> [] ->
  let w' := snd (tick UPDATE_INTERVAL env w) in
  fst (tick UPDATE_INTERVAL env w) = Ret tt /\
  (forall x, In x (clients w') <->
             In x (clients (after_sleep env w)) /\ send_failed env x = false) /\
  closed (log w')
  = closed (log (after_sleep env w))
    ++ filter (send_failed env) (clients (after_sleep env w)).
Proof.
  intros Hne.
  destruct (tick_fan_out UPDATE_INTERVAL env w
              (uncancelled_at env AtSleep not_cancelled) Hne)
    as (m & w2 & Hm & Hcl & Ht).
  destruct (get_metrics_frame UPDATE_INTERVAL (psutil env) (after_sleep env w))
    as (m' & w2' & Hm' & _ & _ & Hl2).
  rewrite Hm in Hm'; inversion Hm'; subst m' w2'; clear Hm'.
  simpl in Ht |- *; rewrite Ht; clear Ht.
  rewrite uncancelled_at by exact not_cancelled.
  unfold after_gather; rewrite gather_undisturbed.
  rewrite (sends_made_uncancelled env (uncancelled_at env AtGather not_cancelled)).
  simpl.
  match goal with |- context [for_each _ _ ?w0] =>
    destruct (prune_loop_undisturbed (clients w2) w0) as (Hr & Hin & Hc) end.
  simpl in Hr, Hin, Hc.
  split; [exact Hr|]; split.
  - intros x; rewrite Hin, Hcl.
    destruct (send_failed env x); split; intros [Hx H]; split;
      try exact Hx; try reflexivity; try discriminate; try tauto.
    intros [_ H']; discriminate.
  - rewrite Hc, Hl2, !closed_app, closed_sends, Hcl; simpl.
    rewrite !app_nil_r; reflexivity.
Qed.

End UndisturbedPrune.

(** * Further lemmas *)

Section HandlerRegistryFacts.

Context {O : SetOrder}.

(** ** The registry under the handlers *)

Lemma set_contains_discard_other (x y : WebSocket) (s : list WebSocket) :
  x <> y -> set_contains x (set_discard y s) = set_contains x s.
Proof.
  intros Hne.
  destruct (set_contains x s) eqn:E.
  - apply set_contains_In; apply set_discard_In; split.
    + apply set_contains_In; exact E.
    + congruence.
  - destruct (set_contains x (set_discard y s)) eqn:E'; [|reflexivity].
    apply set_contains_In, set_discard_In in E'; destruct E' as [Hin _].
    apply set_contains_In in Hin; congruence.
Qed.

Lemma set_discard_app (x : WebSocket) (s s' : list WebSocket) :
  set_discard x (s ++ s') = set_discard x s ++ set_discard x s'.
Proof. unfold set_discard; apply filter_app. Qed.

Lemma set_discard_comm (x y : WebSocket) (s : list WebSocket) :
  set_discard x (set_discard y s) = set_discard y (set_discard x s).
Proof.
  induction s as [|z s IH]; simpl; [reflexivity|].
  destruct (Nat.eqb y z) eqn:Ey, (Nat.eqb x z) eqn:Ex; simpl;
    rewrite ?Ey, ?Ex; simpl; rewrite IH; reflexivity.
Qed.

Lemma run_handler_clients (h : handler_event) (w : world) :
  clients (snd (run_handler h w)) = handler_clients h (clients w).
Proof.
  destruct h as [ws | ws e]; unfold run_handler, handler_clients.
  - rewrite websocket_endpoint_enter_run; reflexivity.
  - rewrite websocket_endpoint_leave_run; reflexivity.
Qed.

Lemma run_handlers_clients (hs : list handler_event) (w : world) :
  clients (snd (run_handlers hs w))
  = fold_left (fun s h => handler_clients h s) hs (clients w).
Proof.
  revert w; induction hs as [|h hs IH]; intros w; simpl; [reflexivity|].
  rewrite IH, run_handler_clients; reflexivity.
Qed.

Lemma handler_clients_NoDup (h : handler_event) (s : list WebSocket) :
  NoDup s -> NoDup (handler_clients h s).
Proof.
  destruct h; simpl; [apply set_add_NoDup | apply set_discard_NoDup].
Qed.

Lemma handler_clients_origin (h : handler_event) (s : list WebSocket)
    (x : WebSocket) :
  In x (handler_clients h s) -> In x s \/ h = HConnect x.
Proof.
  destruct h as [ws | ws e]; simpl.
  - rewrite set_add_In; intros [H | ->]; auto.
  - rewrite set_discard_In; tauto.
Qed.

(** Handlers keep the registry free of duplicates, and whoever is
    registered after they ran was registered before or has connected
    meanwhile. *)
Lemma run_handlers_registry (hs : list handler_event) (w : world) :
  (NoDup (clients w) -> NoDup (clients (snd (run_handlers hs w)))) /\
  (forall x, In x (clients (snd (run_handlers hs w))) ->
             In x (clients w) \/ In (HConnect x) hs).
Proof.
  rewrite run_handlers_clients; generalize (clients w); clear w.
  induction hs as [|h hs IH]; intros s; simpl; [tauto|].
  destruct (IH (handler_clients h s)) as [Hnd Hor]; split.
  - intros H; apply Hnd, handler_clients_NoDup, H.
  - intros x Hx; destruct (Hor x Hx) as [H | H]; [|auto].
    destruct (handler_clients_origin h s x H) as [H' | H']; auto.
Qed.

Lemma fold_handlers_NoDup (hs : list handler_event) (s : list WebSocket) :
  NoDup s -> NoDup (fold_left (fun s h => handler_clients h s) hs s).
Proof.
  revert s; induction hs as [|h hs IH]; intros s Hs; simpl; [exact Hs|].
  apply IH, handler_clients_NoDup, Hs.
Qed.

Lemma handler_clients_In (h : handler_event) (s : list WebSocket)
    (y : WebSocket) :
  In y (handler_clients h s) <->
  match h with
  | HConnect ws => In y s \/ ws = y
  | HLeave ws _ => In y s /\ ws <> y
  end.
Proof.
  destruct h as [ws | ws e]; simpl; [apply set_add_In | apply set_discard_In].
Qed.

(** Handlers of other connections act alike on a registry with [ws] and
    on the same registry without it. *)
Lemma fold_handlers_beside (ws : WebSocket) (hs : list handler_event)
    (s1 s2 : list WebSocket) :
  Forall (fun h => handler_subject h <> ws) hs ->
  ~ In ws s2 ->
  (forall y, In y s1 <-> In y s2 \/ y = ws) ->
  ~ In ws (fold_left (fun s h => handler_clients h s) hs s2) /\
  forall y,
    In y (fold_left (fun s h => handler_clients h s) hs s1) <->
    In y (fold_left (fun s h => handler_clients h s) hs s2) \/ y = ws.
Proof.
  intros Hall; revert s1 s2; induction Hall as [|h hs Hh Hall IH];
    intros s1 s2 Hn Hiff; simpl; [split; assumption|].
  apply IH.
  - rewrite handler_clients_In; destruct h as [x | x e]; simpl in *.
    + intros [H | H]; [contradiction | congruence].
    + tauto.
  - intros y; rewrite !handler_clients_In; destruct h as [x | x e]; simpl in *.
    + rewrite Hiff; tauto.
    + rewrite Hiff; split; [tauto|].
      intros [H | ->]; [tauto | split; [auto | congruence]].
Qed.

Lemma registry_kept_refl (P : WebSocket -> Prop) (s : list WebSocket) :
  registry_kept P s s.
Proof. split; auto. Qed.

Lemma registry_kept_trans (P : WebSocket -> Prop) (s1 s2 s3 : list WebSocket) :
  registry_kept P s1 s2 -> registry_kept P s2 s3 -> registry_kept P s1 s3.
Proof.
  intros [Hn Ho] [Hn' Ho']; split; [auto|].
  intros x Hx; destruct (Ho' x Hx) as [H | H]; auto.
Qed.

Lemma registry_kept_weaken (P Q : WebSocket -> Prop) (s s' : list WebSocket) :
  (forall x, P x -> Q x) -> registry_kept P s s' -> registry_kept Q s s'.
Proof.
  intros HPQ [Hn Ho]; split; [exact Hn|].
  intros x Hx; destruct (Ho x Hx); auto.
Qed.

Lemma registry_kept_discard (P : WebSocket -> Prop) (ws : WebSocket)
    (s : list WebSocket) :
  registry_kept P s (set_discard ws s).
Proof.
  split; [apply set_discard_NoDup|].
  intros x Hx; apply set_discard_In in Hx; tauto.
Qed.

Lemma run_handlers_kept (hs : list handler_event) (w : world) :
  registry_kept (fun x => In (HConnect x) hs)
                (clients w) (clients (snd (run_handlers hs w))).
Proof. apply run_handlers_registry. Qed.

End HandlerRegistryFacts.

Section PassFacts.

Context {float : Type} {RT : PyRuntime float} {O : SetOrder}.
Variable UPDATE_INTERVAL : float.

Implicit Types (env : tick_env float) (w : world).

Lemma after_sleep_log env w :
  broadcast_task (after_sleep env w) = broadcast_task w /\
  last_io_stats (after_sleep env w) = last_io_stats w /\
  exists l, log (after_sleep env w) = log w ++ EvSleep :: l /\ handler_noise l.
Proof.
  unfold after_sleep.
  destruct (run_handlers_ran (during_sleep env) (snd (emit EvSleep w)))
    as [_ (Ht & Hi & l & Hl & Hn)]; simpl in *.
  repeat split; auto; exists l; rewrite Hl, <- app_assoc; auto.
Qed.

Lemma after_sleep_kept env w :
  registry_kept (connects_during env) (clients w) (clients (after_sleep env w)).
Proof.
  unfold after_sleep.
  eapply registry_kept_weaken;
    [|exact (run_handlers_kept (during_sleep env) (snd (emit EvSleep w)))].
  intros x Hx; left; exact Hx.
Qed.

Lemma after_gather_kept env (message : string) w :
  registry_kept (connects_during env)
                (clients w) (clients (after_gather env message w)).
Proof.
  unfold after_gather.
  match goal with |- context [run_handlers ?hs ?w0] =>
    assert (Hk := run_handlers_kept hs w0) end.
  simpl in Hk; eapply registry_kept_weaken; [|exact Hk].
  intros x Hx; right; left; exact Hx.
Qed.

Lemma prune_kept env (pair : WebSocket * result unit) w :
  registry_kept (connects_during env)
                (clients w) (clients (snd (prune env pair w))).
Proof.
  destruct pair as [ws res]; unfold prune.
  destruct (isinstance_Exception res); [|apply registry_kept_refl].
  unfold bind; rewrite ws_close_swallowed.
  assert (Hk := run_handlers_kept (during_close env ws)
                  (snd (emit (EvClose ws) w))).
  simpl in Hk.
  assert (Hk' : registry_kept (connects_during env) (clients w)
                  (clients (snd (run_handlers (during_close env ws)
                                   (snd (emit (EvClose ws) w)))))).
  { eapply registry_kept_weaken; [|exact Hk].
    intros x Hx; right; right; exists ws; exact Hx. }
  destruct (cancelled_at env (AtClose ws)); [exact Hk'|].
  eapply registry_kept_trans; [exact Hk'|].
  unfold clients_discard, bind, get_clients, put_clients; simpl.
  apply registry_kept_discard.
Qed.

Lemma prune_loop_kept env (pairs : list (WebSocket * result unit)) w :
  registry_kept (connects_during env)
                (clients w) (clients (snd (for_each pairs (prune env) w))).
Proof.
  revert w; induction pairs as [|pair pairs IH]; intros w;
    cbn [for_each]; [apply registry_kept_refl|].
  unfold bind.
  assert (Hk := prune_kept env pair w).
  destruct (prune env pair w) as [[[]|e|] w1]; simpl in *; try exact Hk.
  eapply registry_kept_trans; [exact Hk | apply IH].
Qed.

(** A pass keeps the registry free of duplicates and registers nobody:
    whoever is registered at its end was registered at its start or was
    accepted by a handler meanwhile. *)
Lemma tick_kept env w :
  registry_kept (connects_during env)
                (clients w) (clients (snd (tick UPDATE_INTERVAL env w))).
Proof.
  assert (Hs := after_sleep_kept env w).
  destruct (cancelled_at env AtSleep) eqn:Hc.
  - rewrite tick_cancelled_asleep by exact Hc; exact Hs.
  - destruct (clients (after_sleep env w)) as [|ws rest] eqn:He.
    + rewrite tick_nobody by assumption; simpl; rewrite He; exact Hs.
    + destruct (tick_fan_out UPDATE_INTERVAL env w Hc) as (m & w2 & _ & Hcl & Ht);
        [congruence|]; simpl in Ht; rewrite Ht; clear Ht.
      rewrite <- He, <- Hcl in Hs.
      assert (Hg := after_gather_kept env (json_dumps m) w2).
      eapply registry_kept_trans; [exact Hs|].
      eapply registry_kept_trans; [exact Hg|].
      destruct (cancelled_at env AtGather);
        [apply registry_kept_refl | apply prune_loop_kept].
Qed.

(** What a pass adds to the log holds one sample when the pass gets as far
    as sampling and none otherwise; the stored counters are those the
    sample left, or untouched. *)
Lemma tick_samples env w :
  samples (log (snd (tick UPDATE_INTERVAL env w)))
  = samples (log w) ++ (if reaches_sampling env w then [tt] else []) /\
  last_io_stats (snd (tick UPDATE_INTERVAL env w))
  = if reaches_sampling env w
    then last_io_stats (snd (get_metrics UPDATE_INTERVAL (psutil env)
                                         (after_sleep env w)))
    else last_io_stats w.
Proof.
  destruct (after_sleep_log env w) as (_ & Hi1 & l1 & Hl1 & (_ & _ & Hs1 & _)).
  assert (Hsam1 : samples (log (after_sleep env w)) = samples (log w)).
  { rewrite Hl1, samples_app; simpl; rewrite Hs1, app_nil_r; reflexivity. }
  unfold reaches_sampling.
  destruct (cancelled_at env AtSleep) eqn:Hc; simpl.
  - rewrite tick_cancelled_asleep by exact Hc; simpl.
    rewrite app_nil_r; auto.
  - destruct (clients (after_sleep env w)) as [|ws rest] eqn:He.
    + rewrite tick_nobody by assumption; simpl; rewrite app_nil_r; auto.
    + destruct (tick_fan_out UPDATE_INTERVAL env w Hc) as (m & w2 & Hm & Hcl & Ht);
        [congruence|]; simpl in Ht; rewrite Ht, Hm; clear Ht; simpl.
      destruct (get_metrics_frame UPDATE_INTERVAL (psutil env) (after_sleep env w))
        as (m' & w2' & Hm' & _ & _ & Hl2).
      rewrite Hm in Hm'; inversion Hm'; subst m' w2'; clear Hm'.
      destruct (after_gather_log env (json_dumps m) w2)
        as (_ & Hi3 & l3 & Hl3 & (_ & _ & Hs3 & _)).
      assert (Hsam3 : samples (log (after_gather env (json_dumps m) w2))
                      = samples (log w) ++ [tt]).
      { rewrite Hl3, Hl2, !samples_app, samples_maybe_sends, Hs3, Hsam1; simpl.
        rewrite !app_nil_r; reflexivity. }
      destruct (cancelled_at env AtGather); [auto|].
      match goal with |- context [for_each ?ps (prune env) ?w0] =>
        destruct (prune_loop_ran env ps w0) as [(_ & Hi4 & l4 & Hl4 & _ & Hs4 & _) _]
      end.
      rewrite Hl4, samples_app, Hs4, app_nil_r, Hi4; auto.
Qed.

(** With every send succeeding nothing is pruned, whatever the handlers
    did to the registry during the fan-out. *)
Lemma prune_loop_all_sent env (members targets : list WebSocket) w :
  (forall ws, send_raises env ws = None) ->
  for_each (combine members (map (send_result env) targets)) (prune env) w
  = (Ret tt, w).
Proof.
  intros Hok; revert targets; induction members as [|ws members IH];
    intros [|t targets]; try reflexivity.
  cbn [map combine for_each]; unfold bind, prune, send_result.
  rewrite Hok; simpl; apply IH.
Qed.

End PassFacts.

(** ** The loop over several passes *)

Section LoopFacts.

Context {float : Type} {RT : PyRuntime float} {O : SetOrder}.
Variable UPDATE_INTERVAL : float.

Implicit Types (env : tick_env float) (w : world).

Lemma while_True_kept (envs : list (tick_env float)) w :
  registry_kept (fun x => Exists (fun env => connects_during env x) envs)
                (clients w) (clients (snd (while_True UPDATE_INTERVAL envs w))).
Proof.
  revert w; induction envs as [|env envs IH]; intros w; cbn [while_True].
  - apply registry_kept_refl.
  - unfold bind.
    assert (Hk := tick_kept UPDATE_INTERVAL env w).
    destruct (tick UPDATE_INTERVAL env w) as [[[]|e|] w1]; simpl in *;
      try (eapply registry_kept_weaken; [|exact Hk];
           intros x Hx; apply Exists_cons_hd; exact Hx).
    eapply registry_kept_trans.
    + eapply registry_kept_weaken; [|exact Hk].
      intros x Hx; apply Exists_cons_hd; exact Hx.
    + eapply registry_kept_weaken; [|apply IH].
      intros x Hx; apply Exists_cons_tl; exact Hx.
Qed.

Lemma while_True_samples (envs : list (tick_env float)) w :
  List.length (samples (log (snd (while_True UPDATE_INTERVAL envs w))))
  <= List.length (samples (log w)) + List.length envs.
Proof.
  revert w; induction envs as [|env envs IH]; intros w; cbn [while_True].
  - simpl; lia.
  - unfold bind.
    destruct (tick_samples UPDATE_INTERVAL env w) as [Hs _].
    assert (Hle : List.length (samples (log (snd (tick UPDATE_INTERVAL env w))))
                  <= List.length (samples (log w)) + 1).
    { rewrite Hs, length_app; destruct (reaches_sampling env w); simpl; lia. }
    destruct (tick UPDATE_INTERVAL env w) as [[[]|e|] w1]; simpl in *;
      try lia.
    specialize (IH w1); lia.
Qed.

(** A value of the stored counters that no sample changes is never
    changed by the loop. *)
Lemma while_True_counters (c : option sdiskio) (envs : list (tick_env float)) w :
  (forall reading w0,
      last_io_stats w0 = c ->
      last_io_stats (snd (get_metrics UPDATE_INTERVAL reading w0)) = c) ->
  last_io_stats w = c ->
  last_io_stats (snd (while_True UPDATE_INTERVAL envs w)) = c.
Proof.
  intros Hkeep; revert w; induction envs as [|env envs IH]; intros w Hc;
    cbn [while_True]; [exact Hc|].
  unfold bind.
  destruct (tick_samples UPDATE_INTERVAL env w) as [_ Hi].
  assert (Hc1 : last_io_stats (snd (tick UPDATE_INTERVAL env w)) = c).
  { rewrite Hi; destruct (reaches_sampling env w); [|exact Hc].
    apply Hkeep.
    destruct (after_sleep_log env w) as (_ & Hi1 & _); congruence. }
  destruct (tick UPDATE_INTERVAL env w) as [[[]|e|] w1]; simpl in *; auto.
Qed.

End LoopFacts.

(** ** Samples one after the other *)

Section SampleFacts.

Context {float : Type} {RT : PyRuntime float} {O : SetOrder}.
Variable UPDATE_INTERVAL : float.

(** What a sample returns and stores depends on the world through the
    stored counters only. *)
Lemma get_metrics_counters_only (reading : psutil_reading float) (w w' : world) :
  last_io_stats w = last_io_stats w' ->
  fst (get_metrics UPDATE_INTERVAL reading w)
  = fst (get_metrics UPDATE_INTERVAL reading w') /\
  last_io_stats (snd (get_metrics UPDATE_INTERVAL reading w))
  = last_io_stats (snd (get_metrics UPDATE_INTERVAL reading w')).
Proof.
  destruct reading as [c m d io now];
    destruct w as [cl bt last lg], w' as [cl' bt' last' lg'];
    simpl; intros <-.
  unfold get_metrics, get_metrics_try, get_metrics_except,
    try_except_Exception, bind, emit, call, attr_read_bytes,
    attr_write_bytes, truediv, get_last_io_stats, put_last_io_stats,
    ret, raise; simpl.
  destruct c as [c|e]; [|split; reflexivity].
  destruct m as [m|e]; [|split; reflexivity].
  destruct d as [d|e]; [|split; reflexivity].
  destruct io as [io|e]; [|split; reflexivity].
  destruct io as [cur|]; [|split; reflexivity].
  destruct last as [last|]; [|split; reflexivity].
  destruct (float_is_zero UPDATE_INTERVAL); split; reflexivity.
Qed.

Lemma sampling_counters (w : world) : last_io_stats (sampling w) = last_io_stats w.
Proof. reflexivity. Qed.

End SampleFacts.

(** ** Members the handlers leave alone *)

Section KeptFacts.

Context {O : SetOrder}.

Lemma run_handlers_keep_member (hs : list handler_event) (w : world)
    (x : WebSocket) :
  In x (clients w) ->
  (forall e, ~ In (HLeave x e) hs) ->
  In x (clients (snd (run_handlers hs w))).
Proof.
  rewrite run_handlers_clients; generalize (clients w); clear w.
  induction hs as [|h hs IH]; intros s Hx Hn; simpl; [exact Hx|].
  apply IH; [|intros e He; apply (Hn e); right; exact He].
  destruct h as [ws | ws e]; simpl.
  - apply set_add_In; auto.
  - apply set_discard_In; split; [exact Hx|].
    intros ->; apply (Hn e); left; reflexivity.
Qed.

(** ** Waiting for the task *)

Lemma await_task_run (env : shutdown_env) (t : task) (w : world) :
  await_task env t w
  = (match t with
     | TaskPending => Pending
     | TaskDone (Some e) => Raise e
     | _ => Ret tt
     end,
     let w1 := snd (run_handlers (during_task_wait env) w) in
     match t with
     | TaskCancelling =>
         mk_world (clients w1) (Some (TaskDone None)) (last_io_stats w1) (log w1)
     | _ => w1
     end).
Proof.
  unfold await_task, bind.
  destruct (run_handlers_ran (during_task_wait env) w) as [Hr _].
  destruct (run_handlers (during_task_wait env) w) as [r w1];
    simpl in Hr; subst r; simpl.
  destruct t as [| |[e|]]; reflexivity.
Qed.

(** Lines 145-150 for every state of the task: what the hook gets from
    them, what becomes of the task, and what the wait leaves of the
    world. *)
Lemma stop_broadcast_task_run (env : shutdown_env) (w : world) :
  exists w1 l,
    stop_broadcast_task env w
    = (match broadcast_task w with
       | Some (TaskDone (Some e)) => if is_Exception e then Ret tt else Raise e
       | _ => Ret tt
       end, w1) /\
    broadcast_task w1
    = match broadcast_task w with
      | Some TaskPending | Some TaskCancelling => Some (TaskDone None)
      | t => t
      end /\
    last_io_stats w1 = last_io_stats w /\
    clients w1
    = match broadcast_task w with
      | None => clients w
      | Some _ => fold_left (fun s h => handler_clients h s)
                            (during_task_wait env) (clients w)
      end /\
    log w1 = log w ++ l /\ closed l = [] /\ sent l = [].
Proof.
  destruct w as [cl bt io lg]; simpl.
  destruct bt as [t|].
  2:{ exists (mk_world cl None io lg), []; rewrite app_nil_r.
      repeat split; reflexivity. }
  unfold stop_broadcast_task, bind at 1, get_broadcast_task at 1; simpl.
  assert (Hstep : forall t0 t1,
             exists w1 l,
               try_except_Exception (await_task env t1) (fun _ => ret tt)
                 (mk_world cl (Some t0) io (lg ++ [EvCancelTask]))
               = (match t1 with
                  | TaskPending => Pending
                  | TaskDone (Some e) => if is_Exception e then Ret tt else Raise e
                  | _ => Ret tt
                  end, w1) /\
               broadcast_task w1
               = match t1 with TaskCancelling => Some (TaskDone None)
                          | _ => Some t0 end /\
               last_io_stats w1 = io /\
               clients w1 = fold_left (fun s h => handler_clients h s)
                                      (during_task_wait env) cl /\
               log w1 = lg ++ l /\ closed l = [] /\ sent l = []).
  { intros t0 t1.
    set (w0 := mk_world cl (Some t0) io (lg ++ [EvCancelTask])).
    destruct (run_handlers_ran (during_task_wait env) w0)
      as [_ (Ht & Hi & l & Hl & (Hs & Hc & _))].
    assert (Hcl := run_handlers_clients (during_task_wait env) w0).
    simpl in Ht, Hi, Hl, Hcl.
    assert (Hlog : log (snd (run_handlers (during_task_wait env) w0))
                   = lg ++ EvCancelTask :: l)
      by (rewrite Hl, <- app_assoc; reflexivity).
    assert (Hquiet : closed (EvCancelTask :: l) = [] /\ sent (EvCancelTask :: l) = [])
      by (simpl; auto).
    destruct Hquiet as [Hq1 Hq2].
    unfold try_except_Exception; rewrite await_task_run; fold w0.
    destruct t1 as [| |[e|]]; cbv beta iota zeta.
    - eexists; exists (EvCancelTask :: l); split; [reflexivity|].
      repeat split; assumption.
    - eexists; exists (EvCancelTask :: l); split; [reflexivity|].
      simpl; repeat split; assumption.
    - destruct (is_Exception e); unfold ret;
        (eexists; exists (EvCancelTask :: l); split; [reflexivity|];
         repeat split; assumption).
    - eexists; exists (EvCancelTask :: l); split; [reflexivity|].
      repeat split; assumption. }
  destruct t as [| |[e|]].
  - destruct (Hstep TaskCancelling TaskCancelling) as (w1 & l & H); exists w1, l.
    unfold task_cancel, bind, emit, put_broadcast_task, get_broadcast_task;
      simpl; exact H.
  - destruct (Hstep TaskCancelling TaskCancelling) as (w1 & l & H); exists w1, l.
    unfold task_cancel, bind, emit, get_broadcast_task, ret; simpl; exact H.
  - destruct (Hstep (TaskDone (Some e)) (TaskDone (Some e))) as (w1 & l & H).
    exists w1, l.
    unfold task_cancel, bind, emit, get_broadcast_task, ret; simpl; exact H.
  - destruct (Hstep (TaskDone None) (TaskDone None)) as (w1 & l & H).
    exists w1, l.
    unfold task_cancel, bind, emit, get_broadcast_task, ret; simpl; exact H.
Qed.

(** ** A cancellation during a close *)

End KeptFacts.

Section CancelledClose.

Context {float : Type} {RT : PyRuntime float} {O : SetOrder}.
Variable UPDATE_INTERVAL : float.
Variable env : tick_env float.
Variable victim : WebSocket.

Hypothesis cancelled_closing : cancel env = Some (AtClose victim).
Hypothesis closes_undisturbed : forall ws, during_close env ws = [].
Hypothesis victim_failed : send_failed env victim = true.

Lemma cancelled_at_close (ws : WebSocket) :
  cancelled_at env (AtClose ws) = Nat.eqb ws victim.
Proof. unfold cancelled_at; rewrite cancelled_closing; reflexivity. Qed.

Lemma prune_cancellable (ws : WebSocket) (w : world) :
  prune env (ws, send_result env ws) w
  = if send_failed env ws then
      if Nat.eqb ws victim
      then (Raise CancelledError,
            mk_world (clients w) (broadcast_task w) (last_io_stats w)
                     (log w ++ [EvClose ws]))
      else (Ret tt,
            mk_world (set_discard ws (clients w)) (broadcast_task w)
                     (last_io_stats w) (log w ++ [EvClose ws]))
    else (Ret tt, w).
Proof.
  unfold prune, send_result, send_failed.
  destruct (send_raises env ws) as [msg|]; simpl; [|reflexivity].
  unfold bind; rewrite ws_close_swallowed, cancelled_at_close.
  rewrite closes_undisturbed; destruct (Nat.eqb ws victim); reflexivity.
Qed.

(** The pruning loop gets as far as the close of the victim and is left
    there: the victim has been closed and is still registered. *)
Lemma prune_loop_cancelled (l : list WebSocket) (w : world) :
  In victim l ->
  In victim (clients w) ->
  let out := for_each (combine l (map (send_result env) l)) (prune env) w in
  fst out = Raise CancelledError /\
  In victim (clients (snd out)) /\
  exists before, closed (log (snd out)) = closed (log w) ++ before ++ [victim].
Proof.
  revert w; induction l as [|ws l IH]; intros w Hl Hw; [destruct Hl|].
  cbn [combine map for_each]; unfold bind; rewrite prune_cancellable.
  destruct (Nat.eq_dec ws victim) as [-> | Hne].
  - rewrite victim_failed, Nat.eqb_refl; simpl.
    split; [reflexivity|]; split; [exact Hw|].
    exists []; rewrite closed_app; reflexivity.
  - assert (Hl' : In victim l) by (destruct Hl; [contradiction | assumption]).
    assert (Hkeep : In victim (set_discard ws (clients w)))
      by (apply set_discard_In; split; assumption).
    apply Nat.eqb_neq in Hne; rewrite Hne.
    destruct (send_failed env ws).
    + match goal with |- context [for_each _ _ ?w0] =>
        destruct (IH w0 Hl' Hkeep) as (Hr & Hin & before & Hc) end.
      split; [exact Hr|]; split; [exact Hin|].
      exists (ws :: before); rewrite Hc; simpl.
      rewrite closed_app, <- app_assoc; reflexivity.
    + destruct (IH w Hl' Hw) as (Hr & Hin & before & Hc).
      split; [exact Hr|]; split; [exact Hin|]; exists before; exact Hc.
Qed.

Hypothesis gather_undisturbed : during_gather env = [].

Lemma tick_cancelled_closing (w : world) :
  In victim (clients (after_sleep env w)) ->
  let out := tick UPDATE_INTERVAL env w in
  fst out = Raise CancelledError /\
  In victim (clients (snd out)) /\
  exists before, closed (log (snd out)) = closed (log w) ++ before ++ [victim].
Proof.
  intros Hin.
  assert (Hs : cancelled_at env AtSleep = false)
    by (unfold cancelled_at; rewrite cancelled_closing; reflexivity).
  assert (Hg : cancelled_at env AtGather = false)
    by (unfold cancelled_at; rewrite cancelled_closing; reflexivity).
  destruct (tick_fan_out UPDATE_INTERVAL env w Hs) as (m & w2 & Hm & Hcl & Ht).
  { intros He; rewrite He in Hin; destruct Hin. }
  destruct (get_metrics_frame UPDATE_INTERVAL (psutil env) (after_sleep env w))
    as (m' & w2' & Hm' & _ & _ & Hl2).
  rewrite Hm in Hm'; inversion Hm'; subst m' w2'; clear Hm'.
  destruct (after_sleep_log env w) as (_ & _ & l1 & Hl1 & (_ & Hc1 & _)).
  simpl in Ht |- *; rewrite Ht, Hg; clear Ht.
  unfold after_gather; rewrite gather_undisturbed; simpl.
  assert (Hin2 : In victim (clients w2)) by (rewrite Hcl; exact Hin).
  match goal with |- context [for_each _ _ ?w0] =>
    destruct (prune_loop_cancelled (clients w2) w0 Hin2 Hin2)
      as (Hr & Hv & before & Hc) end.
  split; [exact Hr|]; split; [exact Hv|]; exists before.
  rewrite Hc; simpl.
  rewrite Hl2, Hl1, !closed_app, closed_maybe_sends; simpl.
  rewrite Hc1, !app_nil_r; reflexivity.
Qed.

End CancelledClose.

(** The examples list a new member last. *)
#[export] Existing Instance appended_last.

(** * The claims of the specification *)

(** ** The fan-out and the prune (C1, C2, C3) *)

(** C1.  The fan-out of a pass targets exactly the members registered when
    it starts ([tick_sends]), but the prune does not reuse that snapshot:
    line 109 lists the registry anew.  Here subscribers 1 and 2 are
    registered, the send to 1 fails and the send to 2 succeeds, and the
    handler of 1 leaves during the fan-out.  Both are sent the message; the
    prune then pairs the failure of 1 with subscriber 2, closes 2 and
    removes it. *)
Theorem prune_pairs_results_with_later_registry :
  let w' := snd (tick two_seconds env_first_drops world0) in
  send_result env_first_drops 1 = Raise (PyException "connection closed") /\
  send_result env_first_drops 2 = Ret tt /\
  map fst (sent (log w')) = [1; 2] /\
  closed (log w') = [2] /\
  clients w' = [].
Proof. vm_compute; repeat split; reflexivity. Qed.

(** C2.  Subscribers 1 and 2 are registered, the send to 2 fails, and
    subscriber 1 disconnects during the fan-out.  The prune pairs the
    success of 1 with subscriber 2: at the end of the pass 2 has not been
    closed and is still registered, and the next pass sends to it again. *)
Theorem failed_member_survives_the_pass :
  let w1 := snd (tick two_seconds env_other_leaves world0) in
  let w2 := snd (tick two_seconds env_quiet w1) in
  send_result env_other_leaves 2 = Raise (PyException "broken pipe") /\
  clients w1 = [2] /\
  closed (log w1) = [] /\
  map fst (sent (skipn (List.length (log w1)) (log w2))) = [2].
Proof. vm_compute; repeat split; reflexivity. Qed.



(** ** The handler's exit (C4) *)

(** C4, as stated, fails: a handler whose receive loop ends with a
    transport error leaves the registry and returns, and nothing has
    closed its connection. *)
Lemma handler_exit_closes_nothing :
  ~ handler_exit_as_specified 3 (fun w => w)
      (PyException "connection reset by peer") world0.
Proof.
  intros (_ & _ & Hclosed).
  specialize (Hclosed eq_refl).
  assert (Hne : PyException "connection reset by peer" <> WebSocketDisconnect)
    by discriminate.
  specialize (Hclosed Hne); vm_compute in Hclosed; exact Hclosed.
Qed.

(** C4, amended.  Whenever the receive loop of a handler exits, the handler
    removes its connection from the registry; it closes no connection,
    whatever ended the loop; an exception derived from [Exception] is
    swallowed; and a removal that comes second, be it the handler's after
    the broadcast loop pruned the connection or the broadcast loop's
    [discard] after the handler left, changes nothing and raises nothing. *)
Theorem handler_exit_removes_without_closing {O : SetOrder} (ws : WebSocket)
    (others : world -> world) (e : exn) (w : world) :
  let entered := snd (websocket_endpoint_enter ws None w) in
  let out := websocket_endpoint ws None others e w in
  ~ In ws (clients (snd out)) /\
  closed (log (snd out)) = closed (log (others entered)) /\
  (is_Exception e = true -> fst out = Ret tt) /\
  (~ In ws (clients (others entered)) ->
   clients (snd out) = clients (others entered)) /\
  (forall w0, ~ In ws (clients w0) -> clients_discard ws w0 = (Ret tt, w0)).
Proof.
  unfold websocket_endpoint, bind.
  rewrite websocket_endpoint_enter_run; unfold yield_to.
  rewrite websocket_endpoint_leave_run; simpl.
  split; [rewrite set_discard_In; tauto|].
  split; [rewrite closed_app, app_nil_r; reflexivity|].
  split; [intros ->; reflexivity|].
  split; [apply set_discard_absent | apply clients_discard_absent].
Qed.

Lemma handler_exit_removes_without_closing_witness :
  let out :=
    websocket_endpoint 3 None (pruned_meanwhile 3)
      (PyException "connection reset by peer") world0 in
  fst out = Ret tt /\
  clients (snd out) = [1; 2] /\
  closed (log (snd out)) = [3] /\
  clients_discard 3 (snd out) = (Ret tt, snd out).
Proof.
  destruct (handler_exit_removes_without_closing 3 (pruned_meanwhile 3)
              (PyException "connection reset by peer") world0)
    as (_ & Hclosed & Hret & Hsame & Hdiscard).
  split; [apply Hret; reflexivity|].
  split; [rewrite Hsame; [reflexivity | vm_compute; intuition discriminate]|].
  split; [rewrite Hclosed; reflexivity|].
  apply Hdiscard; vm_compute; intuition discriminate.
Defined.

(** ** Shutdown (C5, C10) *)

(** C5.  With the loop running, the shutdown hook requests its
    cancellation and waits until the task is done, which it is by
    returning; only then it closes, one after the other and whether or not
    a close fails, every connection registered at that moment; it ends by
    returning, with the registry empty. *)
Theorem shutdown_cancels_then_closes {O : SetOrder} (env : shutdown_env) (w : world) :
  broadcast_task w = Some TaskPending ->
  let waited :=
    snd (run_handlers (during_task_wait env)
           (snd (task_cancel TaskPending w))) in
  exists w' l l',
    on_shutdown env w = (Ret tt, w') /\
    clients w' = [] /\
    broadcast_task w' = Some (TaskDone None) /\
    log w' = log w ++ EvCancelTask :: l ++ l' /\
    closed l = [] /\ cancels l = [] /\
    closed l' = clients waited /\ cancels l' = [].
Proof.
  intros Ht waited; subst waited.
  destruct (stop_broadcast_task_running env w Ht)
    as (w1 & Hstop & Ht1 & _ & Hc1 & l & Hl & Hn).
  destruct (close_all_clients_run env w1)
    as (w' & Hclose & Hc' & Ht' & _ & l' & Hl' & Hcl' & Hca' & _).
  exists w', l, l'.
  unfold on_shutdown, bind; rewrite Hstop, Hclose.
  destruct Hn as (_ & Hcl & _ & Hca).
  repeat split; auto; try congruence.
  rewrite Hl', Hl, <- app_assoc; reflexivity.
Qed.

Lemma shutdown_cancels_then_closes_witness :
  exists w',
    on_shutdown shutdown_all_closes_fail world0 = (Ret tt, w') /\
    clients w' = [] /\
    broadcast_task w' = Some (TaskDone None) /\
    closed (log w') = [1; 2].
Proof.
  destruct (shutdown_cancels_then_closes shutdown_all_closes_fail world0 eq_refl)
    as (w' & l & l' & Hrun & Hc & Ht & Hl & Hcl & _ & Hcl' & _).
  exists w'; repeat split; auto.
  rewrite Hl; simpl; rewrite closed_app, Hcl, Hcl'; reflexivity.
Defined.

(** C10.  When no task was ever created, the shutdown hook requests no
    cancellation, closes every registered connection, whether or not a
    close fails, empties the registry and returns. *)
Theorem shutdown_without_task {O : SetOrder} (env : shutdown_env) (w : world) :
  broadcast_task w = None ->
  exists w' l,
    on_shutdown env w = (Ret tt, w') /\
    clients w' = [] /\
    broadcast_task w' = None /\
    log w' = log w ++ l /\
    closed l = clients w /\ cancels l = [].
Proof.
  intros Ht.
  destruct (close_all_clients_run env w)
    as (w' & Hclose & Hc' & Ht' & _ & l' & Hl' & Hcl' & Hca' & _).
  exists w', l'.
  unfold on_shutdown, bind.
  rewrite stop_broadcast_task_absent by exact Ht; rewrite Hclose.
  repeat split; auto; congruence.
Qed.

Lemma shutdown_without_task_witness :
  exists w',
    on_shutdown shutdown_all_closes_fail world_no_task = (Ret tt, w') /\
    clients w' = [] /\
    log w' = [EvClose 1; EvClose 2].
Proof.
  destruct (shutdown_without_task shutdown_all_closes_fail world_no_task eq_refl)
    as (w' & l & Hrun & Hc & _ & _ & _ & _).
  exists w'; repeat split; auto.
  vm_compute in Hrun; inversion Hrun; reflexivity.
Defined.

(** ** Sampling (C6, C7, C8, C9) *)

(** C6.  [get_metrics] returns a record in every world and for every
    reading.  Its [try] body either returns, and then that record, which
    has no [error] entry, is the result; or it raises, and then the result
    is the record with the five numbers at the integer zero, the message
    of the exception under [error] and the timestamp.  A pass that samples
    in world [w] and that no cancellation keeps from the fan-out sends the
    serialised record, degraded or not, to every member registered
    there. *)
Theorem get_metrics_never_raises {float : Type} {RT : PyRuntime float} {O : SetOrder}
    (UPDATE_INTERVAL : float) (reading : psutil_reading float) (w : world) :
  exists r w',
    get_metrics UPDATE_INTERVAL reading w = (Ret r, w') /\
    fst (get_metrics_try UPDATE_INTERVAL reading (sampling w)) <> Pending /\
    (forall r0,
        fst (get_metrics_try UPDATE_INTERVAL reading (sampling w)) = Ret r0 ->
        r = r0 /\ error r = None) /\
    (forall e,
        fst (get_metrics_try UPDATE_INTERVAL reading (sampling w)) = Raise e ->
        r = degraded (str e) (now_isoformat reading)) /\
    (forall env w0,
        psutil env = reading ->
        after_sleep env w0 = w ->
        cancelled_at env AtSleep = false ->
        cancelled_at env AtGather = false ->
        clients w <> [] ->
        sent (log (snd (tick UPDATE_INTERVAL env w0)))
        = sent (log w0) ++ map (fun ws => (ws, json_dumps r)) (clients w)).
Proof.
  assert (Htick : forall r w',
             get_metrics UPDATE_INTERVAL reading w = (Ret r, w') ->
             forall env w0,
               psutil env = reading ->
               after_sleep env w0 = w ->
               cancelled_at env AtSleep = false ->
               cancelled_at env AtGather = false ->
               clients w <> [] ->
               sent (log (snd (tick UPDATE_INTERVAL env w0)))
               = sent (log w0) ++ map (fun ws => (ws, json_dumps r)) (clients w)).
  { intros r w' Hm env w0 <- <- Hc Hg Hne.
    destruct (tick_sends UPDATE_INTERVAL env w0 Hc Hg Hne) as (m & w2 & Hm' & Hs).
    rewrite Hm in Hm'; inversion Hm'; subst; exact Hs. }
  destruct (get_metrics_cases UPDATE_INTERVAL reading w)
    as [(c & m & d & cur & last & _ & _ & _ & _ & _ & _ & Htry & Hm)
       | (msg & Htry & Hm)];
    eexists; eexists; (split; [exact Hm|]); rewrite Htry; simpl;
    (split; [discriminate|]).
  - split; [intros r0 H; inversion H; auto|].
    split; [discriminate | exact (Htick _ _ Hm)].
  - split; [discriminate|].
    split; [intros e H; inversion H; reflexivity | exact (Htick _ _ Hm)].
Qed.

Lemma get_metrics_never_raises_witness :
  get_metrics two_seconds reading_broken (after_sleep env_broken_sample world0)
  = (Ret (degraded "access denied" "2024-05-01T12:00:02"),
     sampling (after_sleep env_broken_sample world0)) /\
  sent (log (snd (tick two_seconds env_broken_sample world0)))
  = [(1, json_dumps (degraded "access denied" "2024-05-01T12:00:02"));
     (2, json_dumps (degraded "access denied" "2024-05-01T12:00:02"))].
Proof.
  destruct (get_metrics_never_raises two_seconds reading_broken
              (after_sleep env_broken_sample world0))
    as (r & w' & Hm & _ & _ & Hraise & Hsend).
  assert (Hr : r = degraded "access denied" "2024-05-01T12:00:02").
  { apply (Hraise (PyException "access denied")); reflexivity. }
  subst r; split.
  - rewrite Hm; f_equal; vm_compute in Hm; inversion Hm; reflexivity.
  - apply (Hsend env_broken_sample world0);
      [reflexivity | reflexivity | reflexivity | reflexivity | discriminate].
Defined.

(** C7.  When the interval sleep of a pass completes and nobody is
    registered, the pass ends there: no sample is taken, the stored
    counters stay as they were, and the loop goes on with the next
    pass. *)
Theorem empty_registry_skips_sampling {float : Type} {RT : PyRuntime float} {O : SetOrder}
    (UPDATE_INTERVAL : float) (env : tick_env float)
    (envs : list (tick_env float)) (w : world) :
  cancelled_at env AtSleep = false ->
  clients (after_sleep env w) = [] ->
  tick UPDATE_INTERVAL env w = (Ret tt, after_sleep env w) /\
  samples (log (after_sleep env w)) = samples (log w) /\
  last_io_stats (after_sleep env w) = last_io_stats w /\
  while_True UPDATE_INTERVAL (env :: envs) w
  = while_True UPDATE_INTERVAL envs (after_sleep env w).
Proof.
  intros Hc He.
  assert (Ht := tick_nobody UPDATE_INTERVAL env w Hc He).
  destruct (after_sleep_ran env w) as (_ & Hi & l & Hl & _ & Hs & _).
  split; [exact Ht|].
  split; [rewrite Hl, samples_app, Hs, app_nil_r; reflexivity|].
  split; [exact Hi|].
  simpl; unfold bind; rewrite Ht; reflexivity.
Qed.

Lemma empty_registry_skips_sampling_witness :
  tick two_seconds env_quiet world_empty
  = (Ret tt, after_sleep env_quiet world_empty) /\
  samples (log (after_sleep env_quiet world_empty)) = [] /\
  last_io_stats (after_sleep env_quiet world_empty)
  = Some (mk_sdiskio 1000 1000).
Proof.
  destruct (empty_registry_skips_sampling two_seconds env_quiet [] world_empty
              eq_refl eq_refl) as (Ht & Hs & Hi & _).
  repeat split; assumption.
Defined.

(** C8.  A sample that succeeds (its record has no [error] entry) reports
    under [disk_read] and [disk_write] the differences between the
    counters just read and the stored ones, divided by [UPDATE_INTERVAL]
    and rounded to two places, and stores the counters just read. *)
Theorem disk_rates_use_nominal_interval {float : Type} {RT : PyRuntime float}
    (UPDATE_INTERVAL : float) (reading : psutil_reading float)
    (w w' : world) (r : metrics float) :
  get_metrics UPDATE_INTERVAL reading w = (Ret r, w') ->
  error r = None ->
  exists cur last,
    disk_io_counters reading = Value (Some cur) /\
    last_io_stats w = Some last /\
    disk_read r
    = PyFloat (round2 (float_div
                 (float_of_int (read_bytes cur - read_bytes last))
                 UPDATE_INTERVAL)) /\
    disk_write r
    = PyFloat (round2 (float_div
                 (float_of_int (write_bytes cur - write_bytes last))
                 UPDATE_INTERVAL)) /\
    last_io_stats w' = Some cur.
Proof.
  intros Hm He.
  destruct (get_metrics_cases UPDATE_INTERVAL reading w)
    as [(c & m & d & cur & last & _ & _ & _ & Hio & Hlast & _ & _ & Hm')
       | (msg & _ & Hm')];
    rewrite Hm in Hm'; inversion Hm'; subst r w'; clear Hm'.
  - exists cur, last; repeat split; assumption.
  - discriminate He.
Qed.

Lemma disk_rates_use_nominal_interval_witness :
  exists r w',
    get_metrics two_seconds reading_ok world0 = (Ret r, w') /\
    disk_read r = PyFloat (200000 # 100)%Q /\
    disk_write r = PyFloat (400050 # 100)%Q /\
    last_io_stats w' = Some (mk_sdiskio 5000 9001).
Proof.
  destruct (get_metrics two_seconds reading_ok world0) as [[r| |] w'] eqn:Hm;
    try (vm_compute in Hm; discriminate Hm).
  assert (He : error r = None)
    by (vm_compute in Hm; inversion Hm; reflexivity).
  destruct (disk_rates_use_nominal_interval two_seconds reading_ok world0 Hm He)
    as (cur & last & Hcur & Hlast & Hr & Hw & Hs).
  inversion Hcur; inversion Hlast; subst cur last.
  exists r, w'; repeat split; [| | exact Hs].
  - rewrite Hr; reflexivity.
  - rewrite Hw; reflexivity.
Defined.

(** C9.  A sample that takes the error branch leaves the stored counters
    as they were; a sample that succeeds replaces them with the counters
    it read. *)
Theorem error_branch_keeps_last_io_stats {float : Type} {RT : PyRuntime float}
    (UPDATE_INTERVAL : float) (reading : psutil_reading float)
    (w w' : world) (r : metrics float) :
  get_metrics UPDATE_INTERVAL reading w = (Ret r, w') ->
  (error r <> None -> last_io_stats w' = last_io_stats w) /\
  (error r = None ->
   exists cur,
     disk_io_counters reading = Value (Some cur) /\
     last_io_stats w' = Some cur).
Proof.
  intros Hm.
  destruct (get_metrics_cases UPDATE_INTERVAL reading w)
    as [(c & m & d & cur & last & _ & _ & _ & Hio & Hlast & _ & _ & Hm')
       | (msg & _ & Hm')];
    rewrite Hm in Hm'; inversion Hm'; subst r w'; clear Hm'; simpl.
  - split; [intros H; elim H; reflexivity | intros _; exists cur; auto].
  - split; [reflexivity | discriminate].
Qed.

Lemma error_branch_keeps_last_io_stats_witness :
  exists r w',
    get_metrics two_seconds reading_broken world0 = (Ret r, w') /\
    error r = Some "access denied" /\
    last_io_stats w' = Some (mk_sdiskio 1000 1000).
Proof.
  destruct (get_metrics two_seconds reading_broken world0) as [[r| |] w'] eqn:Hm;
    try (vm_compute in Hm; discriminate Hm).
  assert (He : error r = Some "access denied")
    by (vm_compute in Hm; inversion Hm; reflexivity).
  destruct (error_branch_keeps_last_io_stats two_seconds reading_broken world0 Hm)
    as [Hkeep _].
  exists r, w'; repeat split; [exact He|].
  rewrite Hkeep; [reflexivity | rewrite He; discriminate].
Defined.

(** * Further properties of the module *)

Unset Implicit Arguments.

(** ** Passes of the broadcast loop *)

Lemma send_failed_false {float : Type} (env : tick_env float) (ws : WebSocket) :
  send_failed env ws = false <-> send_raises env ws = None.
Proof.
  unfold send_failed; destruct (send_raises env ws); split; congruence.
Qed.

(** X1.  In a pass that nobody cancels and during whose fan-out and closes
    no handler runs, every member registered when the sleep ends whose
    send raised is closed and is out of the registry at the end of the
    pass, also when its close raises; the members whose send returned stay
    registered and are not closed. *)
Theorem undisturbed_pass_prunes_failed {float : Type} {RT : PyRuntime float} {O : SetOrder}
    (UPDATE_INTERVAL : float) (env : tick_env float) (w : world) :
  cancel env = None ->
  undisturbed env ->
  clients (after_sleep env w) <> [] ->
  let w' := snd (tick UPDATE_INTERVAL env w) in
  fst (tick UPDATE_INTERVAL env w) = Ret tt /\
  (forall x, In x (clients w') <->
             In x (clients (after_sleep env w)) /\ send_raises env x = None) /\
  closed (log w')
  = closed (log w) ++ filter (send_failed env) (clients (after_sleep env w)).
Proof.
  intros Hc [Hg Hcl] Hne.
  destruct (@tick_undisturbed _ _ _ UPDATE_INTERVAL env Hc Hcl Hg w Hne)
    as (Hr & Hin & Hclosed).
  destruct (after_sleep_log env w) as (_ & _ & l & Hl & (_ & Hc1 & _)).
  split; [exact Hr|]; split.
  - intros x; rewrite Hin, send_failed_false; tauto.
  - simpl; rewrite Hclosed, Hl, closed_app; simpl.
    rewrite Hc1, app_nil_r; reflexivity.
Qed.

Lemma undisturbed_pass_prunes_failed_witness :
  fst (tick two_seconds env_second_fails world0) = Ret tt /\
  (In 1 (clients (snd (tick two_seconds env_second_fails world0))) /\
   ~ In 2 (clients (snd (tick two_seconds env_second_fails world0)))) /\
  closed (log (snd (tick two_seconds env_second_fails world0))) = [2].
Proof.
  assert (Hu : undisturbed env_second_fails) by (split; reflexivity).
  assert (Hne : clients (after_sleep env_second_fails world0) <> [])
    by discriminate.
  destruct (undisturbed_pass_prunes_failed two_seconds env_second_fails world0
              eq_refl Hu Hne) as (Hr & Hin & Hc).
  split; [exact Hr|]; split; [split|exact Hc].
  - apply Hin; split; [simpl; auto | reflexivity].
  - intros H; apply Hin in H; destruct H as [_ H]; discriminate H.
Defined.

(** X2.  In a pass all of whose sends return, nothing is closed, and
    every connection registered at its start whose handler does not leave
    meanwhile is registered at its end, whatever else the handlers do to
    the registry and wherever a cancellation reaches the pass. *)
Theorem pass_without_failures_removes_nobody {float : Type}
    {RT : PyRuntime float} {O : SetOrder} (UPDATE_INTERVAL : float) (env : tick_env float)
    (w : world) :
  (forall ws, send_raises env ws = None) ->
  closed (log (snd (tick UPDATE_INTERVAL env w))) = closed (log w) /\
  forall x, In x (clients w) -> ~ leaves_during env x ->
            In x (clients (snd (tick UPDATE_INTERVAL env w))).
Proof.
  intros Hok.
  destruct (after_sleep_log env w) as (_ & _ & l1 & Hl1 & (_ & Hc1 & _)).
  assert (Hclosed1 : closed (log (after_sleep env w)) = closed (log w)).
  { rewrite Hl1, closed_app; simpl; rewrite Hc1, app_nil_r; reflexivity. }
  assert (Hkeep1 : forall x, In x (clients w) -> ~ leaves_during env x ->
                             In x (clients (after_sleep env w))).
  { intros x Hx Hn; unfold after_sleep.
    apply run_handlers_keep_member; [exact Hx|].
    intros e He; apply Hn; left; exists e; exact He. }
  destruct (cancelled_at env AtSleep) eqn:Hc.
  { rewrite tick_cancelled_asleep by exact Hc; split; assumption. }
  destruct (clients (after_sleep env w)) as [|ws rest] eqn:He.
  { rewrite tick_nobody by assumption; simpl; rewrite He; split; assumption. }
  destruct (tick_fan_out UPDATE_INTERVAL env w Hc) as (m & w2 & Hm & Hcl & Ht);
    [congruence|].
  destruct (get_metrics_frame UPDATE_INTERVAL (psutil env) (after_sleep env w))
    as (m' & w2' & Hm' & _ & _ & Hl2).
  rewrite Hm in Hm'; inversion Hm'; subst m' w2'; clear Hm'.
  destruct (after_gather_log env (json_dumps m) w2)
    as (_ & _ & l3 & Hl3 & (_ & Hc3 & _)).
  assert (Hw : snd (tick UPDATE_INTERVAL env w) = after_gather env (json_dumps m) w2).
  { simpl in Ht; rewrite Ht.
    destruct (cancelled_at env AtGather); [reflexivity|].
    rewrite prune_loop_all_sent by exact Hok; reflexivity. }
  rewrite Hw; split.
  - rewrite Hl3, Hl2, !closed_app, closed_maybe_sends, Hc3, Hclosed1; simpl.
    rewrite !app_nil_r; reflexivity.
  - intros x Hx Hn; unfold after_gather.
    apply run_handlers_keep_member.
    + simpl; rewrite Hcl, He; apply Hkeep1; assumption.
    + intros e H; apply Hn; right; left; exists e; exact H.
Qed.

Lemma pass_without_failures_removes_nobody_witness :
  closed (log (snd (tick two_seconds env_newcomer world0))) = [] /\
  In 2 (clients (snd (tick two_seconds env_newcomer world0))).
Proof.
  destruct (pass_without_failures_removes_nobody two_seconds env_newcomer
              world0 (fun _ => eq_refl)) as [Hc Hk].
  split; [exact Hc|].
  apply Hk; [simpl; auto|].
  intros [[e H] | [[e H] | [ws [e H]]]]; simpl in H.
  - destruct H as [H | []]; discriminate H.
  - destruct H as [H | [H | []]]; [inversion H | discriminate H].
  - exact H.
Defined.

(** X3.  The loop registers nobody: whoever is in the registry after any
    number of passes was in it before or was accepted by a handler during
    one of the passes. *)
Theorem loop_registers_nobody {float : Type} {RT : PyRuntime float} {O : SetOrder}
    (UPDATE_INTERVAL : float) (envs : list (tick_env float)) (w : world)
    (x : WebSocket) :
  In x (clients (snd (broadcast_metrics_loop UPDATE_INTERVAL envs w))) ->
  In x (clients w) \/ Exists (fun env => connects_during env x) envs.
Proof.
  rewrite snd_broadcast_metrics_loop.
  destruct (while_True_kept UPDATE_INTERVAL envs w) as [_ H]; apply H.
Qed.

Lemma loop_registers_nobody_witness :
  In 4 (clients (snd (broadcast_metrics_loop two_seconds
                        [env_quiet; env_newcomer] world0))) /\
  (In 4 (clients world0) \/
   Exists (fun env => connects_during env 4) [env_quiet; env_newcomer]).
Proof.
  assert (H : In 4 (clients (snd (broadcast_metrics_loop two_seconds
                                    [env_quiet; env_newcomer] world0))))
    by (vm_compute; auto).
  split; [exact H|].
  exact (loop_registers_nobody two_seconds [env_quiet; env_newcomer] world0 4 H).
Defined.

(** X4.  A registry without duplicates stays so under the handlers, under
    the loop with everything the handlers do during its awaits, and under
    the shutdown hook. *)
Theorem registry_stays_duplicate_free {float : Type} {RT : PyRuntime float} {O : SetOrder}
    (UPDATE_INTERVAL : float) (hs : list handler_event)
    (envs : list (tick_env float)) (senv : shutdown_env) (w : world) :
  NoDup (clients w) ->
  NoDup (clients (snd (run_handlers hs w))) /\
  NoDup (clients (snd (broadcast_metrics_loop UPDATE_INTERVAL envs w))) /\
  NoDup (clients (snd (on_shutdown senv w))).
Proof.
  intros Hnd; split; [|split].
  - destruct (run_handlers_registry hs w) as [H _]; auto.
  - rewrite snd_broadcast_metrics_loop.
    destruct (while_True_kept UPDATE_INTERVAL envs w) as [H _]; auto.
  - unfold on_shutdown, bind.
    destruct (stop_broadcast_task_run senv w)
      as (w1 & l & Hstop & _ & _ & Hcl & _).
    assert (Hnd1 : NoDup (clients w1)).
    { rewrite Hcl; destruct (broadcast_task w); [|exact Hnd].
      apply fold_handlers_NoDup, Hnd. }
    rewrite Hstop.
    destruct (close_all_clients_run senv w1) as (w' & Hclose & He & _).
    destruct (broadcast_task w) as [[| |[e|]]|]; try destruct (is_Exception e);
      try (rewrite Hclose; simpl; rewrite He; constructor); exact Hnd1.
Qed.

Lemma registry_stays_duplicate_free_witness :
  NoDup (clients (snd (run_handlers [HConnect 2; HConnect 3] world0))) /\
  NoDup (clients (snd (broadcast_metrics_loop two_seconds
                         [env_newcomer; env_first_drops] world0))).
Proof.
  assert (Hnd : NoDup (clients world0)).
  { simpl; repeat constructor; simpl; intuition discriminate. }
  destruct (registry_stays_duplicate_free two_seconds
              [HConnect 2; HConnect 3] [env_newcomer; env_first_drops]
              shutdown_quiet world0 Hnd) as (H1 & H2 & _).
  split; assumption.
Defined.

(** X5.  A pass samples once when its sleep is not cancelled and somebody
    is registered when it ends, and not at all otherwise; so the loop
    never takes more samples than it makes passes. *)
Theorem at_most_one_sample_per_pass {float : Type} {RT : PyRuntime float} {O : SetOrder}
    (UPDATE_INTERVAL : float) (env : tick_env float)
    (envs : list (tick_env float)) (w : world) :
  samples (log (snd (tick UPDATE_INTERVAL env w)))
  = samples (log w) ++ (if reaches_sampling env w then [tt] else []) /\
  List.length (samples (log (snd (broadcast_metrics_loop UPDATE_INTERVAL envs w))))
  <= List.length (samples (log w)) + List.length envs.
Proof.
  split; [apply tick_samples|].
  rewrite snd_broadcast_metrics_loop; apply while_True_samples.
Qed.

(** ** Samples *)

Lemma degraded_sample_keeps_counters {float : Type} {RT : PyRuntime float}
    (UPDATE_INTERVAL : float) (c : option sdiskio) :
  (forall reading w, last_io_stats w = c ->
     exists msg,
       get_metrics UPDATE_INTERVAL reading w
       = (Ret (degraded msg (now_isoformat reading)), sampling w)) ->
  forall reading w, last_io_stats w = c ->
    last_io_stats (snd (get_metrics UPDATE_INTERVAL reading w)) = c.
Proof.
  intros H reading w Hc; destruct (H reading w Hc) as [msg ->]; exact Hc.
Qed.

(** X6.  With an interval of zero every sample takes the error branch,
    whatever [psutil] reads, and the loop never advances the stored
    counters. *)
Theorem zero_interval_degrades_every_sample {float : Type}
    {RT : PyRuntime float} {O : SetOrder} (UPDATE_INTERVAL : float)
    (reading : psutil_reading float) (envs : list (tick_env float))
    (w : world) :
  float_is_zero UPDATE_INTERVAL = true ->
  (exists msg,
      get_metrics UPDATE_INTERVAL reading w
      = (Ret (degraded msg (now_isoformat reading)), sampling w)) /\
  last_io_stats (snd (broadcast_metrics_loop UPDATE_INTERVAL envs w))
  = last_io_stats w.
Proof.
  intros Hz.
  assert (H : forall reading0 w0, last_io_stats w0 = last_io_stats w ->
            exists msg,
              get_metrics UPDATE_INTERVAL reading0 w0
              = (Ret (degraded msg (now_isoformat reading0)), sampling w0)).
  { intros reading0 w0 _.
    destruct (get_metrics_cases UPDATE_INTERVAL reading0 w0)
      as [(c & m & d & cur & last & _ & _ & _ & _ & _ & Hnz & _)
         | (msg & _ & Hm)]; [congruence | exists msg; exact Hm]. }
  split; [apply H; reflexivity|].
  rewrite snd_broadcast_metrics_loop.
  apply while_True_counters; [|reflexivity].
  apply degraded_sample_keeps_counters; exact H.
Qed.

Lemma zero_interval_degrades_every_sample_witness :
  get_metrics zero_seconds reading_ok world0
  = (Ret (degraded "float division by zero" "2024-05-01T12:00:00"),
     sampling world0) /\
  last_io_stats (snd (broadcast_metrics_loop zero_seconds
                        [env_quiet; env_quiet] world0))
  = Some (mk_sdiskio 1000 1000).
Proof.
  assert (Hz : float_is_zero zero_seconds = true) by reflexivity.
  destruct (zero_interval_degrades_every_sample zero_seconds reading_ok
              [env_quiet; env_quiet] world0 Hz) as [[msg Hm] Hk].
  split; [|exact Hk].
  rewrite Hm; vm_compute in Hm; inversion Hm; reflexivity.
Defined.

(** X7.  When no counters were stored (a host without disk counters at
    import time), every sample takes the error branch and stores nothing,
    so the counters stay missing for as long as the loop runs. *)
Theorem missing_counters_never_recover {float : Type} {RT : PyRuntime float} {O : SetOrder}
    (UPDATE_INTERVAL : float) (reading : psutil_reading float)
    (envs : list (tick_env float)) (w : world) :
  last_io_stats w = None ->
  (exists msg,
      get_metrics UPDATE_INTERVAL reading w
      = (Ret (degraded msg (now_isoformat reading)), sampling w)) /\
  last_io_stats (snd (broadcast_metrics_loop UPDATE_INTERVAL envs w)) = None.
Proof.
  intros Hn.
  assert (H : forall reading0 w0, last_io_stats w0 = None ->
            exists msg,
              get_metrics UPDATE_INTERVAL reading0 w0
              = (Ret (degraded msg (now_isoformat reading0)), sampling w0)).
  { intros reading0 w0 Hn0.
    destruct (get_metrics_cases UPDATE_INTERVAL reading0 w0)
      as [(c & m & d & cur & last & _ & _ & _ & _ & Hl & _)
         | (msg & _ & Hm)]; [congruence | exists msg; exact Hm]. }
  split; [apply H; exact Hn|].
  rewrite snd_broadcast_metrics_loop.
  apply while_True_counters; [|exact Hn].
  apply degraded_sample_keeps_counters; exact H.
Qed.

Lemma missing_counters_never_recover_witness :
  get_metrics two_seconds reading_ok world_no_counters
  = (Ret (degraded "'NoneType' object has no attribute 'read_bytes'"
                   "2024-05-01T12:00:00"),
     sampling world_no_counters) /\
  last_io_stats (snd (broadcast_metrics_loop two_seconds
                        [env_quiet; env_quiet] world_no_counters)) = None.
Proof.
  destruct (missing_counters_never_recover two_seconds reading_ok
              [env_quiet; env_quiet] world_no_counters eq_refl)
    as [[msg Hm] Hk].
  split; [|exact Hk].
  rewrite Hm; vm_compute in Hm; inversion Hm; reflexivity.
Defined.

Lemma all_degraded_keep_counters {float : Type} {RT : PyRuntime float}
    (UPDATE_INTERVAL : float) (readings : list (psutil_reading float))
    (w : world) :
  all_degraded UPDATE_INTERVAL readings w ->
  last_io_stats (after_samples UPDATE_INTERVAL readings w) = last_io_stats w.
Proof.
  revert w; induction readings as [|reading rest IH]; intros w; simpl;
    [reflexivity|].
  intros [Hd Hrest]; rewrite (IH _ Hrest).
  destruct (get_metrics_cases UPDATE_INTERVAL reading w)
    as [(c & m & d & cur & last & _ & _ & _ & _ & _ & _ & _ & Hm)
       | (msg & _ & Hm)]; rewrite Hm in Hd |- *; simpl in *.
  - elim Hd; reflexivity.
  - reflexivity.
Qed.

(** X8.  The rates of a sample that succeeds are the differences between
    its counters and those of the last sample that succeeded before it,
    however many samples took the error branch in between, and they are
    still divided by one interval. *)
Theorem rates_span_failed_samples {float : Type} {RT : PyRuntime float}
    (UPDATE_INTERVAL : float) (reading1 reading2 : psutil_reading float)
    (failed : list (psutil_reading float)) (w w1 w2 : world)
    (r1 r2 : metrics float) :
  get_metrics UPDATE_INTERVAL reading1 w = (Ret r1, w1) ->
  error r1 = None ->
  all_degraded UPDATE_INTERVAL failed w1 ->
  get_metrics UPDATE_INTERVAL reading2
    (after_samples UPDATE_INTERVAL failed w1) = (Ret r2, w2) ->
  error r2 = None ->
  exists cur1 cur2,
    disk_io_counters reading1 = Value (Some cur1) /\
    disk_io_counters reading2 = Value (Some cur2) /\
    disk_read r2
    = PyFloat (round2 (float_div
                 (float_of_int (read_bytes cur2 - read_bytes cur1))
                 UPDATE_INTERVAL)) /\
    disk_write r2
    = PyFloat (round2 (float_div
                 (float_of_int (write_bytes cur2 - write_bytes cur1))
                 UPDATE_INTERVAL)) /\
    last_io_stats w2 = Some cur2.
Proof.
  intros Hm1 He1 Hfailed Hm2 He2.
  assert (Hkeep := all_degraded_keep_counters UPDATE_INTERVAL failed w1 Hfailed).
  destruct (get_metrics_cases UPDATE_INTERVAL reading1 w)
    as [(c & m & d & cur1 & last & _ & _ & _ & Hio1 & _ & _ & _ & Hm')
       | (msg & _ & Hm')];
    rewrite Hm1 in Hm'; inversion Hm'; subst r1 w1; clear Hm';
    [|discriminate He1].
  simpl in Hkeep.
  destruct (get_metrics_cases UPDATE_INTERVAL reading2
              (after_samples UPDATE_INTERVAL failed
                 (mk_world (clients w) (broadcast_task w) (Some cur1)
                           (log w ++ [EvSample]))))
    as [(c' & m' & d' & cur2 & last' & _ & _ & _ & Hio2 & Hl & _ & _ & Hm')
       | (msg & _ & Hm')];
    rewrite Hm2 in Hm'; inversion Hm'; subst r2 w2; clear Hm';
    [|discriminate He2].
  rewrite Hkeep in Hl; inversion Hl; subst last'.
  exists cur1, cur2; repeat split; assumption.
Qed.

Lemma rates_span_failed_samples_witness :
  exists r2 w2,
    get_metrics two_seconds reading_later
      (after_samples two_seconds [reading_broken; reading_broken]
         (snd (get_metrics two_seconds reading_ok world0))) = (Ret r2, w2) /\
    disk_read r2 = PyFloat (100000 # 100)%Q /\
    disk_write r2 = PyFloat (25000 # 100)%Q.
Proof.
  destruct (get_metrics two_seconds reading_ok world0) as [[r1| |] w1] eqn:Hm1;
    try (vm_compute in Hm1; discriminate Hm1).
  assert (He1 : error r1 = None)
    by (vm_compute in Hm1; inversion Hm1; reflexivity).
  assert (Hw1 : w1 = snd (get_metrics two_seconds reading_ok world0))
    by (rewrite Hm1; reflexivity).
  simpl snd.
  assert (Hfailed : all_degraded two_seconds [reading_broken; reading_broken] w1).
  { rewrite Hw1; simpl; repeat split; discriminate. }
  destruct (get_metrics two_seconds reading_later
              (after_samples two_seconds [reading_broken; reading_broken] w1))
    as [[r2| |] w2] eqn:Hm2;
    try (rewrite Hw1 in Hm2; vm_compute in Hm2; discriminate Hm2).
  assert (He2 : error r2 = None)
    by (rewrite Hw1 in Hm2; vm_compute in Hm2; inversion Hm2; reflexivity).
  destruct (rates_span_failed_samples two_seconds reading_ok reading_later
              [reading_broken; reading_broken] world0 w1 w2 r1 r2
              Hm1 He1 Hfailed Hm2 He2)
    as (cur1 & cur2 & Hc1 & Hc2 & Hr & Hwr & _).
  inversion Hc1; inversion Hc2; subst cur1 cur2.
  exists r2, w2; split; [reflexivity|]; split.
  - rewrite Hr; reflexivity.
  - rewrite Hwr; reflexivity.
Defined.

(** X9.  Of two samples that succeed one after the other, the second
    reports the differences between its counters and those the first one
    read, divided by the interval and rounded. *)
Theorem consecutive_samples_chain {float : Type} {RT : PyRuntime float}
    (UPDATE_INTERVAL : float) (reading1 reading2 : psutil_reading float)
    (w w1 w2 : world) (r1 r2 : metrics float) :
  get_metrics UPDATE_INTERVAL reading1 w = (Ret r1, w1) ->
  error r1 = None ->
  get_metrics UPDATE_INTERVAL reading2 w1 = (Ret r2, w2) ->
  error r2 = None ->
  exists cur1 cur2,
    disk_io_counters reading1 = Value (Some cur1) /\
    disk_io_counters reading2 = Value (Some cur2) /\
    disk_read r2
    = PyFloat (round2 (float_div
                 (float_of_int (read_bytes cur2 - read_bytes cur1))
                 UPDATE_INTERVAL)) /\
    disk_write r2
    = PyFloat (round2 (float_div
                 (float_of_int (write_bytes cur2 - write_bytes cur1))
                 UPDATE_INTERVAL)).
Proof.
  intros Hm1 He1 Hm2 He2.
  destruct (get_metrics_cases UPDATE_INTERVAL reading1 w)
    as [(c & m & d & cur1 & last & _ & _ & _ & Hio1 & _ & _ & _ & Hm')
       | (msg & _ & Hm')];
    rewrite Hm1 in Hm'; inversion Hm'; subst r1 w1; clear Hm';
    [|discriminate He1].
  destruct (get_metrics_cases UPDATE_INTERVAL reading2
              (mk_world (clients w) (broadcast_task w) (Some cur1)
                        (log w ++ [EvSample])))
    as [(c' & m' & d' & cur2 & last' & _ & _ & _ & Hio2 & Hl & _ & _ & Hm')
       | (msg & _ & Hm')];
    rewrite Hm2 in Hm'; inversion Hm'; subst r2 w2; clear Hm';
    [|discriminate He2].
  simpl in Hl; inversion Hl; subst last'.
  exists cur1, cur2; repeat split; assumption.
Qed.

Lemma consecutive_samples_chain_witness :
  exists r2 w2,
    get_metrics two_seconds reading_later
      (snd (get_metrics two_seconds reading_ok world0)) = (Ret r2, w2) /\
    disk_read r2 = PyFloat (100000 # 100)%Q /\
    disk_write r2 = PyFloat (25000 # 100)%Q.
Proof.
  destruct (get_metrics two_seconds reading_ok world0) as [[r1| |] w1] eqn:Hm1;
    try (vm_compute in Hm1; discriminate Hm1).
  assert (He1 : error r1 = None)
    by (vm_compute in Hm1; inversion Hm1; reflexivity).
  assert (Hw1 : w1 = snd (get_metrics two_seconds reading_ok world0))
    by (rewrite Hm1; reflexivity).
  simpl snd.
  destruct (get_metrics two_seconds reading_later w1) as [[r2| |] w2] eqn:Hm2;
    try (rewrite Hw1 in Hm2; vm_compute in Hm2; discriminate Hm2).
  assert (He2 : error r2 = None)
    by (rewrite Hw1 in Hm2; vm_compute in Hm2; inversion Hm2; reflexivity).
  destruct (consecutive_samples_chain two_seconds reading_ok reading_later
              world0 w1 w2 r1 r2 Hm1 He1 Hm2 He2)
    as (cur1 & cur2 & Hc1 & Hc2 & Hr & Hwr).
  inversion Hc1; inversion Hc2; subst cur1 cur2.
  exists r2, w2; split; [reflexivity|]; split.
  - rewrite Hr; reflexivity.
  - rewrite Hwr; reflexivity.
Defined.

(** ** Handlers *)

(** X10.  What the handler lets through.  A handshake that raises ends the
    handler before the registration: the exception is passed on and the
    registry is as it was.  A [CancelledError] in the receive loop is not
    swallowed, but the [finally] block has run: the connection is out of
    the registry. *)
Theorem handler_lets_through {O : SetOrder} (ws : WebSocket) (others : world -> world)
    (e e' : exn) (w : world) :
  websocket_endpoint ws (Some e) others e' w
  = (Raise e,
     mk_world (clients w) (broadcast_task w) (last_io_stats w)
              (log w ++ [EvAccept ws])) /\
  fst (websocket_endpoint ws None others CancelledError w)
  = Raise CancelledError /\
  ~ In ws (clients (snd (websocket_endpoint ws None others CancelledError w))).
Proof.
  split; [reflexivity|].
  unfold websocket_endpoint, bind.
  rewrite websocket_endpoint_enter_run; unfold yield_to.
  rewrite websocket_endpoint_leave_run; simpl.
  split; [reflexivity | rewrite set_discard_In; tauto].
Qed.

(** X11.  A connection that comes and goes leaves in the registry the
    members the other handlers alone would have left: for a connection
    that was not registered before and that no other handler step is
    about, running the handler around the steps [hs] of the others gives a
    registry with the same members as [hs] alone gives, however the set
    lists its members after an [add]. *)
Theorem handler_lifecycle_leaves_no_trace {O : SetOrder} (ws : WebSocket)
    (hs : list handler_event) (e : exn) (w : world) :
  ~ In ws (clients w) ->
  Forall (fun h => handler_subject h <> ws) hs ->
  forall y,
    In y (clients (snd (websocket_endpoint ws None
                          (fun w0 => snd (run_handlers hs w0)) e w)))
    <-> In y (clients (snd (run_handlers hs w))).
Proof.
  intros Hn Hall y.
  unfold websocket_endpoint, bind.
  rewrite websocket_endpoint_enter_run; unfold yield_to.
  rewrite websocket_endpoint_leave_run; simpl.
  rewrite !run_handlers_clients; simpl.
  destruct (@fold_handlers_beside _ ws hs (set_add ws (clients w)) (clients w)
              Hall Hn) as [Hout Hiff].
  { intros z; rewrite set_add_In; split; intros [H | H]; auto. }
  rewrite set_discard_In, Hiff; split.
  - intros [[H | H] Hne]; [exact H | congruence].
  - intros H; split; [left; exact H | intros <-; contradiction].
Qed.

Lemma handler_lifecycle_leaves_no_trace_witness :
  In 4 (clients (snd (websocket_endpoint (O := newest_first) 3 None
                        (fun w0 => snd (run_handlers (O := newest_first)
                                          [HConnect 4; HLeave 1 WebSocketDisconnect] w0))
                        (PyException "connection reset by peer") world0))).
Proof.
  apply (handler_lifecycle_leaves_no_trace (O := newest_first) 3
           [HConnect 4; HLeave 1 WebSocketDisconnect]
           (PyException "connection reset by peer") world0).
  - simpl; intuition discriminate.
  - repeat constructor; simpl; discriminate.
  - vm_compute; auto.
Defined.

(** ** Startup and shutdown *)

(** X12.  The startup hook creates the task when there is none or when
    the old one is done; run again, it finds the task pending and creates
    no second one. *)
Theorem startup_twice_creates_one_task (w : world) :
  broadcast_task w = None \/ (exists r, broadcast_task w = Some (TaskDone r)) ->
  let w1 := snd (on_startup w) in
  let w2 := snd (on_startup w1) in
  broadcast_task w1 = Some TaskPending /\
  log w1 = log w ++ [EvCreateTask; EvBanner] /\
  broadcast_task w2 = Some TaskPending /\
  log w2 = log w1 ++ [EvBanner].
Proof.
  intros H w1 w2.
  assert (H1 : broadcast_task w1 = Some TaskPending /\
               log w1 = log w ++ [EvCreateTask; EvBanner]).
  { destruct (on_startup_run w) as (_ & _ & Hm).
    destruct H as [H | [r H]]; rewrite H in Hm; exact Hm. }
  destruct H1 as [Ht1 Hl1]; split; [exact Ht1|]; split; [exact Hl1|].
  destruct (on_startup_run w1) as (_ & _ & Hm).
  rewrite Ht1 in Hm; destruct Hm as [Ht2 Hl2].
  split; [exact Ht2 | exact Hl2].
Qed.

Lemma startup_twice_creates_one_task_witness :
  broadcast_task (snd (on_startup (snd (on_startup world_no_task))))
  = Some TaskPending /\
  log (snd (on_startup (snd (on_startup world_no_task))))
  = [EvCreateTask; EvBanner; EvBanner].
Proof.
  destruct (startup_twice_creates_one_task world_no_task (or_introl eq_refl))
    as (_ & Hl1 & Ht2 & Hl2).
  split; [exact Ht2|].
  rewrite Hl2, Hl1; reflexivity.
Defined.

(** What lines 144-156 do whenever awaiting the task does not raise a
    [CancelledError]. *)
Lemma on_shutdown_run {O : SetOrder} (env : shutdown_env) (w : world) :
  broadcast_task w <> Some (TaskDone (Some CancelledError)) ->
  exists w',
    on_shutdown env w = (Ret tt, w') /\
    clients w' = [] /\
    broadcast_task w'
    = match broadcast_task w with
      | Some TaskPending | Some TaskCancelling => Some (TaskDone None)
      | t => t
      end.
Proof.
  intros Hne.
  destruct (stop_broadcast_task_run env w) as (w1 & l & Hstop & Ht & _).
  destruct (close_all_clients_run env w1) as (w' & Hclose & He & Ht' & _).
  exists w'; unfold on_shutdown, bind; rewrite Hstop.
  assert (Hr : match broadcast_task w with
               | Some (TaskDone (Some e)) =>
                   if is_Exception e then Ret tt else Raise e
               | _ => Ret tt
               end = Ret tt).
  { destruct (broadcast_task w) as [[| |[[| |msg]|]]|]; try reflexivity.
    elim Hne; reflexivity. }
  rewrite Hr, Hclose; repeat split; congruence.
Qed.

(** X13.  The shutdown hook returns, with the registry empty, in every
    state of the task but one (a task that ended with [CancelledError]):
    without a task, with the loop running or already cancelled, and with a
    task that is done, also one that crashed with an exception derived
    from [Exception], which is swallowed.  Run a second time it returns
    again and leaves the task as the first run left it. *)
Theorem shutdown_returns_unless_task_cancelled {O : SetOrder} (env env2 : shutdown_env)
    (w : world) :
  broadcast_task w <> Some (TaskDone (Some CancelledError)) ->
  exists w' w'',
    on_shutdown env w = (Ret tt, w') /\
    clients w' = [] /\
    broadcast_task w'
    = match broadcast_task w with
      | Some TaskPending | Some TaskCancelling => Some (TaskDone None)
      | t => t
      end /\
    on_shutdown env2 w' = (Ret tt, w'') /\
    clients w'' = [] /\
    broadcast_task w'' = broadcast_task w'.
Proof.
  intros Hne.
  destruct (on_shutdown_run env w Hne) as (w' & Hrun & He & Ht).
  assert (Hne' : broadcast_task w' <> Some (TaskDone (Some CancelledError))).
  { rewrite Ht; destruct (broadcast_task w) as [[| |[e|]]|];
      try discriminate; exact Hne. }
  destruct (on_shutdown_run env2 w' Hne') as (w'' & Hrun' & He' & Ht').
  exists w', w''; repeat split; try assumption.
  rewrite Ht', Ht; destruct (broadcast_task w) as [[| |[e|]]|]; reflexivity.
Qed.

Lemma shutdown_returns_unless_task_cancelled_witness :
  exists w' w'',
    on_shutdown shutdown_all_closes_fail world0 = (Ret tt, w') /\
    on_shutdown shutdown_quiet w' = (Ret tt, w'') /\
    clients w'' = [] /\
    broadcast_task w'' = Some (TaskDone None).
Proof.
  assert (Hne : broadcast_task world0 <> Some (TaskDone (Some CancelledError)))
    by discriminate.
  destruct (shutdown_returns_unless_task_cancelled shutdown_all_closes_fail
              shutdown_quiet world0 Hne)
    as (w' & w'' & H1 & _ & Ht & H2 & He & Ht').
  exists w', w''; repeat split; try assumption.
  rewrite Ht', Ht; reflexivity.
Defined.

(** X14.  When the task has ended with [CancelledError], awaiting it
    raises that error, which [except Exception] does not catch: the hook
    raises it in turn, closes no connection and leaves the registry as the
    handlers left it. *)
Theorem shutdown_raises_when_task_cancelled {O : SetOrder} (env : shutdown_env) (w : world) :
  broadcast_task w = Some (TaskDone (Some CancelledError)) ->
  fst (on_shutdown env w) = Raise CancelledError /\
  closed (log (snd (on_shutdown env w))) = closed (log w) /\
  clients (snd (on_shutdown env w))
  = fold_left (fun s h => handler_clients h s) (during_task_wait env) (clients w).
Proof.
  intros Ht.
  destruct (stop_broadcast_task_run env w)
    as (w1 & l & Hstop & _ & _ & Hcl & Hl & Hc & _).
  rewrite Ht in Hstop, Hcl; simpl in Hstop.
  unfold on_shutdown, bind; rewrite Hstop; simpl.
  split; [reflexivity|]; split; [|exact Hcl].
  rewrite Hl, closed_app, Hc, app_nil_r; reflexivity.
Qed.

Lemma shutdown_raises_when_task_cancelled_witness :
  fst (on_shutdown shutdown_quiet world_task_cancelled) = Raise CancelledError /\
  closed (log (snd (on_shutdown shutdown_quiet world_task_cancelled))) = [] /\
  clients (snd (on_shutdown shutdown_quiet world_task_cancelled)) = [1; 2].
Proof.
  exact (shutdown_raises_when_task_cancelled shutdown_quiet
           world_task_cancelled eq_refl).
Defined.

(** X15.  After a shutdown that stopped the running loop the task is done,
    so a later startup creates a new task, over an empty registry. *)
Theorem restart_after_shutdown {O : SetOrder} (env : shutdown_env) (w : world) :
  broadcast_task w = Some TaskPending ->
  let w1 := snd (on_shutdown env w) in
  let w2 := snd (on_startup w1) in
  broadcast_task w1 = Some (TaskDone None) /\
  broadcast_task w2 = Some TaskPending /\
  log w2 = log w1 ++ [EvCreateTask; EvBanner] /\
  clients w2 = [].
Proof.
  intros Ht w1 w2.
  assert (Hne : broadcast_task w <> Some (TaskDone (Some CancelledError)))
    by (rewrite Ht; discriminate).
  destruct (on_shutdown_run env w Hne) as (w' & Hrun & He & Ht').
  rewrite Ht in Ht'.
  assert (Hw1 : w1 = w') by (unfold w1; rewrite Hrun; reflexivity).
  destruct (on_startup_run w1) as (_ & Hc & Hm).
  rewrite Hw1 in Hm, Hc |- *; rewrite Ht' in Hm; destruct Hm as [Ht2 Hl2].
  unfold w2; rewrite Hw1.
  repeat split; try assumption; congruence.
Qed.

Lemma restart_after_shutdown_witness :
  broadcast_task (snd (on_startup (snd (on_shutdown shutdown_quiet world0))))
  = Some TaskPending /\
  clients (snd (on_startup (snd (on_shutdown shutdown_quiet world0)))) = [].
Proof.
  destruct (restart_after_shutdown shutdown_quiet world0 eq_refl)
    as (_ & Ht & _ & Hc).
  split; assumption.
Defined.

(** X16.  A cancellation that reaches the loop while it closes a member
    whose send failed ends the pass between the close and the removal:
    with no handler running during the fan-out and the closes, the pass
    raises [CancelledError], the member has been closed, and it is still
    in the registry. *)
Theorem cancelled_close_skips_removal {float : Type} {RT : PyRuntime float} {O : SetOrder}
    (UPDATE_INTERVAL : float) (env : tick_env float) (ws : WebSocket)
    (w : world) :
  cancel env = Some (AtClose ws) ->
  undisturbed env ->
  send_raises env ws <> None ->
  In ws (clients (after_sleep env w)) ->
  fst (tick UPDATE_INTERVAL env w) = Raise CancelledError /\
  fst (broadcast_metrics_loop UPDATE_INTERVAL [env] w) = Ret tt /\
  In ws (clients (snd (tick UPDATE_INTERVAL env w))) /\
  exists before,
    closed (log (snd (tick UPDATE_INTERVAL env w)))
    = closed (log w) ++ before ++ [ws].
Proof.
  intros Hc [Hg Hcl] Hf Hin.
  assert (Hfailed : send_failed env ws = true).
  { unfold send_failed; destruct (send_raises env ws); congruence. }
  destruct (@tick_cancelled_closing _ _ _ UPDATE_INTERVAL env ws Hc Hcl Hfailed
              Hg w Hin) as (Hr & Hv & Hbefore).
  split; [exact Hr|]; split; [|split; assumption].
  rewrite broadcast_metrics_loop_outcome; simpl; unfold bind.
  destruct (tick UPDATE_INTERVAL env w) as [r w1]; simpl in Hr; subst r.
  reflexivity.
Qed.

Lemma cancelled_close_skips_removal_witness :
  fst (tick two_seconds env_cancelled_closing world0) = Raise CancelledError /\
  In 2 (clients (snd (tick two_seconds env_cancelled_closing world0))) /\
  closed (log (snd (tick two_seconds env_cancelled_closing world0))) = [2].
Proof.
  assert (Hu : undisturbed env_cancelled_closing) by (split; reflexivity).
  assert (Hf : send_raises env_cancelled_closing 2 <> None) by discriminate.
  assert (Hin : In 2 (clients (after_sleep env_cancelled_closing world0)))
    by (simpl; auto).
  destruct (cancelled_close_skips_removal two_seconds env_cancelled_closing 2
              world0 eq_refl Hu Hf Hin) as (Hr & _ & Hv & _).
  split; [exact Hr|]; split; [exact Hv | reflexivity].
Defined.
